(** * climate.c: per-state aggregation of NOAA climate records

    A shallow embedding of [climate.c] and the properties of its
    aggregation loop ([analyze_file]) and of its report ([print_report]).

    Conventions of the embedding.
    - [double] is IEEE binary64: Rocq's primitive [float], with [<] as
      [PrimFloat.ltb] and [+], [/], [*], [-] as the primitive operations.
    - [unsigned int] and [int] are 32 bits, [long long] is 64 bits (LP64);
      they are integers in [Z] with the wrap-around written out.
    - A C string is a [string]; a pointer that may be [NULL] is an [option].
    - The array [states] of [NUM_STATES] pointers is a list of options,
      [None] for [NULL]; writing through [states[i]] replaces entry [i].
    - Behaviour that C leaves undefined (a [NULL] token handed to [strcmp],
      [strcpy], [atof], [atoi] or dereferenced; [strcpy] past the end of
      [code]) is the outcome [Undef]; [exit] is the outcome [Exit].
      Overflow of the [int] counters wraps around, and the sum kept in the
      pointer [geoLocation] is a sum of addresses. [calloc] succeeds.
    - What is written to [stdout] and [stderr] is the sequence of [printf]
      calls, each with its format string and its arguments.
    - [atof] is the C library's; the development is parametric in it. *)

From Stdlib Require Import ZArith Floats Uint63 String Ascii List Lia Bool.
From stdpp Require Import base list strings.

Set Warnings "-inexact-float".
Local Open Scope string_scope.
Local Open Scope list_scope.

(** ** The C library functions the program calls *)

Module Libc.

Definition NUL : ascii := "000"%char.
Definition TAB : ascii := "009"%char.
Definition LF : ascii := "010"%char.

(** The C string held in a buffer: the characters before the first NUL. *)
Fixpoint c_str (buf : string) : string :=
  match buf with
  | EmptyString => EmptyString
  | String c r => if Ascii.eqb c NUL then EmptyString else String c (c_str r)
  end.

(** [fgets_chars room stream]: the characters [fgets] stores when [room]
    of them still fit, and the rest of the stream. Reading stops after a
    newline, at the end of the stream, or when the buffer is full. *)
Fixpoint fgets_chars (room : nat) (stream : string) : string * string :=
  match room, stream with
  | O, _ => (EmptyString, stream)
  | S _, EmptyString => (EmptyString, EmptyString)
  | S room', String c rest =>
      if Ascii.eqb c LF then (String c EmptyString, rest)
      else let (l, r) := fgets_chars room' rest in (String c l, r)
  end.

(** [fgets(buf, size, stream)]: [None] is [NULL] (end of file, nothing
    read); otherwise at most [size - 1] characters and the stream after
    them. *)
Definition fgets (size : nat) (stream : string) : option (string * string) :=
  match stream with
  | EmptyString => None
  | String _ _ => Some (fgets_chars (size - 1) stream)
  end.

Fixpoint is_delim (delim : string) (c : ascii) : bool :=
  match delim with
  | EmptyString => false
  | String d r => Ascii.eqb c d || is_delim r c
  end.

Fixpoint skip_delims (delim s : string) : string :=
  match s with
  | EmptyString => EmptyString
  | String c r => if is_delim delim c then skip_delims delim r else s
  end.

(** The token that starts at [s] and the position saved for the next
    call: after the delimiter that ended the token, or the end of [s]. *)
Fixpoint scan_token (delim s : string) : string * string :=
  match s with
  | EmptyString => (EmptyString, EmptyString)
  | String c r =>
      if is_delim delim c then (EmptyString, r)
      else let (t, r') := scan_token delim r in (String c t, r')
  end.

(** [strtok]: the next token ([None] for [NULL]) and the saved position.
    [strtok(NULL, delim)] is [strtok saved delim] on the position the
    previous call saved. *)
Definition strtok (s delim : string) : option string * string :=
  match skip_delims delim s with
  | EmptyString => (None, EmptyString)
  | String c r => let (t, r') := scan_token delim (String c r) in (Some t, r')
  end.

Definition isspace (c : ascii) : bool :=
  let n := nat_of_ascii c in (n =? 32)%nat || ((9 <=? n)%nat && (n <=? 13)%nat).

Fixpoint skip_space (s : string) : string :=
  match s with
  | EmptyString => EmptyString
  | String c r => if isspace c then skip_space r else s
  end.

Definition digit (c : ascii) : option Z :=
  let n := nat_of_ascii c in
  if (48 <=? n)%nat && (n <=? 57)%nat then Some (Z.of_nat (n - 48)) else None.

Fixpoint digits (acc : Z) (s : string) : Z :=
  match s with
  | EmptyString => acc
  | String c r => match digit c with
                  | Some d => digits (10 * acc + d) r
                  | None => acc
                  end
  end.

(** Decimal [strtol] / [strtoll]: white space, an optional sign, digits;
    the value is clamped to the range of the result type. *)
Definition strtol_range (lo hi : Z) (s : string) : Z :=
  let s := skip_space s in
  let v := match s with
           | String "-" r => (- digits 0 r)%Z
           | String "+" r => digits 0 r
           | _ => digits 0 s
           end in
  Z.max lo (Z.min hi v).

(** Wrap-around of the fixed-width integer types. *)
Definition to_uint32 (z : Z) : Z := (z mod 2 ^ 32)%Z.
Definition to_uint64 (z : Z) : Z := (z mod 2 ^ 64)%Z.
Definition to_int32 (z : Z) : Z := ((z + 2 ^ 31) mod 2 ^ 32 - 2 ^ 31)%Z.
Definition to_int8 (z : Z) : Z := ((z + 2 ^ 7) mod 2 ^ 8 - 2 ^ 7)%Z.

(** [atoi] is [(int) strtol(s, NULL, 10)], [atoll] is [strtoll]. *)
Definition atoi (s : string) : Z := to_int32 (strtol_range (- 2 ^ 63)%Z (2 ^ 63 - 1)%Z s).
Definition atoll (s : string) : Z := strtol_range (- 2 ^ 63)%Z (2 ^ 63 - 1)%Z s.

(** An integer below [2^53] as a [double] (the conversion is exact). *)
Definition double_of_Z (z : Z) : float :=
  if (z <? 0)%Z then PrimFloat.opp (PrimFloat.of_uint63 (Uint63.of_Z (- z)%Z))
  else PrimFloat.of_uint63 (Uint63.of_Z z).

(** [atof] on plain decimal literals [[-]ddd[.ddd]]: the digits as an
    integer, divided by the power of ten of the fraction. Both are exact
    doubles for up to 15 digits, so the quotient is the correctly rounded
    value, as [strtod] returns it. Used to run the model on sample lines. *)
Fixpoint frac_len (s : string) : nat :=
  match s with
  | EmptyString => O
  | String c r => match digit c with Some _ => S (frac_len r) | None => O end
  end.

Fixpoint split_point (s : string) : string * string :=
  match s with
  | EmptyString => (EmptyString, EmptyString)
  | String c r =>
      match digit c with
      | Some _ => let (a, b) := split_point r in (String c a, b)
      | None => (EmptyString, if Ascii.eqb c "."%char then r else EmptyString)
      end
  end.

Definition atof_decimal (s : string) : float :=
  let s := skip_space s in
  let (neg, s) := match s with
                  | String "-" r => (true, r)
                  | String "+" r => (false, r)
                  | _ => (false, s)
                  end in
  let (ip, fp) := split_point s in
  let k := frac_len fp in
  let m := digits (digits 0 ip) fp in
  let v := PrimFloat.div (double_of_Z m) (double_of_Z (10 ^ Z.of_nat k)%Z) in
  if neg then PrimFloat.opp v else v.

End Libc.

(** ** The program *)

Module Climate.
Import Libc.

Definition NUM_STATES : nat := 50.
Definition EXIT_FAILURE : Z := 1.
Definition line_sz : nat := 100.

(** The delimiters handed to every [strtok] call: tab and newline. *)
Definition delims : string := String TAB (String LF EmptyString).

(** [struct climate_info]. [code] is [char code[3]]: it holds a string of
    at most two characters. [geoLocation] is a [char *], kept as an
    address. *)
Record climate_info := mk_info {
  code : string;
  num_records : Z;
  avgHumidity : float;
  temperature : float;
  maxTemp : float;
  maxTempTimestamp : Z;
  minTemp : float;
  minTempTimestamp : Z;
  lightning : Z;
  snow : Z;
  cloud : float;
  geoLocation : Z;
  pressure : float
}.

(** [calloc(sizeof(struct climate_info), 1)]: every byte zero. *)
Definition calloc_info : climate_info :=
  mk_info EmptyString 0 0%float 0%float 0%float 0 0%float 0 0 0 0%float 0 0%float.

Definition set_code (v : string) (r : climate_info) : climate_info :=
  mk_info v r.(num_records) r.(avgHumidity) r.(temperature) r.(maxTemp)
    r.(maxTempTimestamp) r.(minTemp) r.(minTempTimestamp) r.(lightning)
    r.(snow) r.(cloud) r.(geoLocation) r.(pressure).
Definition set_num_records (v : Z) (r : climate_info) : climate_info :=
  mk_info r.(code) v r.(avgHumidity) r.(temperature) r.(maxTemp)
    r.(maxTempTimestamp) r.(minTemp) r.(minTempTimestamp) r.(lightning)
    r.(snow) r.(cloud) r.(geoLocation) r.(pressure).
Definition set_avgHumidity (v : float) (r : climate_info) : climate_info :=
  mk_info r.(code) r.(num_records) v r.(temperature) r.(maxTemp)
    r.(maxTempTimestamp) r.(minTemp) r.(minTempTimestamp) r.(lightning)
    r.(snow) r.(cloud) r.(geoLocation) r.(pressure).
Definition set_temperature (v : float) (r : climate_info) : climate_info :=
  mk_info r.(code) r.(num_records) r.(avgHumidity) v r.(maxTemp)
    r.(maxTempTimestamp) r.(minTemp) r.(minTempTimestamp) r.(lightning)
    r.(snow) r.(cloud) r.(geoLocation) r.(pressure).
Definition set_maxTemp (v : float) (r : climate_info) : climate_info :=
  mk_info r.(code) r.(num_records) r.(avgHumidity) r.(temperature) v
    r.(maxTempTimestamp) r.(minTemp) r.(minTempTimestamp) r.(lightning)
    r.(snow) r.(cloud) r.(geoLocation) r.(pressure).
Definition set_maxTempTimestamp (v : Z) (r : climate_info) : climate_info :=
  mk_info r.(code) r.(num_records) r.(avgHumidity) r.(temperature) r.(maxTemp)
    v r.(minTemp) r.(minTempTimestamp) r.(lightning)
    r.(snow) r.(cloud) r.(geoLocation) r.(pressure).
Definition set_minTemp (v : float) (r : climate_info) : climate_info :=
  mk_info r.(code) r.(num_records) r.(avgHumidity) r.(temperature) r.(maxTemp)
    r.(maxTempTimestamp) v r.(minTempTimestamp) r.(lightning)
    r.(snow) r.(cloud) r.(geoLocation) r.(pressure).
Definition set_minTempTimestamp (v : Z) (r : climate_info) : climate_info :=
  mk_info r.(code) r.(num_records) r.(avgHumidity) r.(temperature) r.(maxTemp)
    r.(maxTempTimestamp) r.(minTemp) v r.(lightning)
    r.(snow) r.(cloud) r.(geoLocation) r.(pressure).
Definition set_lightning (v : Z) (r : climate_info) : climate_info :=
  mk_info r.(code) r.(num_records) r.(avgHumidity) r.(temperature) r.(maxTemp)
    r.(maxTempTimestamp) r.(minTemp) r.(minTempTimestamp) v
    r.(snow) r.(cloud) r.(geoLocation) r.(pressure).
Definition set_snow (v : Z) (r : climate_info) : climate_info :=
  mk_info r.(code) r.(num_records) r.(avgHumidity) r.(temperature) r.(maxTemp)
    r.(maxTempTimestamp) r.(minTemp) r.(minTempTimestamp) r.(lightning)
    v r.(cloud) r.(geoLocation) r.(pressure).
Definition set_cloud (v : float) (r : climate_info) : climate_info :=
  mk_info r.(code) r.(num_records) r.(avgHumidity) r.(temperature) r.(maxTemp)
    r.(maxTempTimestamp) r.(minTemp) r.(minTempTimestamp) r.(lightning)
    r.(snow) v r.(geoLocation) r.(pressure).
Definition set_geoLocation (v : Z) (r : climate_info) : climate_info :=
  mk_info r.(code) r.(num_records) r.(avgHumidity) r.(temperature) r.(maxTemp)
    r.(maxTempTimestamp) r.(minTemp) r.(minTempTimestamp) r.(lightning)
    r.(snow) r.(cloud) v r.(pressure).
Definition set_pressure (v : float) (r : climate_info) : climate_info :=
  mk_info r.(code) r.(num_records) r.(avgHumidity) r.(temperature) r.(maxTemp)
    r.(maxTempTimestamp) r.(minTemp) r.(minTempTimestamp) r.(lightning)
    r.(snow) r.(cloud) r.(geoLocation) v.

(** One [printf] / [fprintf] call: the format string as the source writes
    it (escape sequences are not expanded) and the arguments passed. *)
Inductive arg :=
| AStr (s : string)          (* a [char *] for [%s] *)
| AInt (z : Z)               (* an [int] *)
| AUInt (z : Z)              (* an [unsigned int] *)
| ADouble (f : float)        (* a [double] *)
| ACtime (t : Z).            (* the string [ctime(&t)] returns *)

Record printf_call := Printf { fmt : string; args : list arg }.

(** How a piece of the program ends: normally with a value, in
    [exit(status)] after a message on [stderr], or in undefined
    behaviour. *)
Inductive result (A : Type) :=
| Ok (a : A)
| Exit (status : Z) (msg : printf_call)
| Undef.
Arguments Ok {A} a.
Arguments Exit {A} status msg.
Arguments Undef {A}.

Definition bind {A B : Type} (r : result A) (k : A -> result B) : result B :=
  match r with
  | Ok a => k a
  | Exit st m => Exit st m
  | Undef => Undef
  end.

(** Using a pointer that may be [NULL]. *)
Definition deref {A : Type} (p : option A) : result A :=
  match p with
  | Some a => Ok a
  | None => Undef
  end.

Notation "'do' x <- e ; k" := (bind e (fun x => k))
  (at level 10, x pattern, e at level 100, k at level 200).

Abbreviation states_t := (list (option climate_info)).

(** [states[i]]: [None] is [NULL]. (The program reads no entry beyond the
    end of the array.) *)
Definition entry (states : states_t) (i : nat) : option climate_info :=
  mjoin (states !! i).

(** [countStates]: the loop runs while [num < num_states] and
    [states[num]] is not [NULL]; it makes at most [num_states] rounds. *)
Fixpoint countStates_loop (rounds : nat) (states : states_t) (num_states num : nat) : nat :=
  match rounds with
  | O => num
  | S rounds' =>
      if (num <? num_states)%nat && bool_decide (is_Some (entry states num))
      then countStates_loop rounds' states num_states (S num)
      else num
  end.

Definition countStates (states : states_t) (num_states : nat) : nat :=
  countStates_loop num_states states num_states 0.

(** [compareOrder]: the position of the entry whose code is [codex], or
    [-1]. [strcmp] with a [NULL] [codex] is undefined. The loop makes at
    most [currentStates] rounds. *)
Fixpoint compareOrder_loop (rounds : nat) (states : states_t) (codex : option string)
    (currentStates order : nat) : result Z :=
  match rounds with
  | O => Ok (-1)%Z
  | S rounds' =>
      if (order <? currentStates)%nat then
        match entry states order with
        | None => Ok (-1)%Z
        | Some info =>
            do cx <- deref codex;
            if String.eqb info.(code) cx then Ok (Z.of_nat order)
            else compareOrder_loop rounds' states codex currentStates (S order)
        end
      else Ok (-1)%Z
  end.

Definition compareOrder (states : states_t) (codex : option string) (currentStates : nat)
  : result Z :=
  compareOrder_loop currentStates states codex currentStates 0.

(** [strcpy(info->code, src)] into [char code[3]]: defined for a source of
    at most two characters. *)
Definition strcpy_code (src : option string) : result string :=
  do s <- deref src;
  if (String.length s <=? 2)%nat then Ok s else Undef.

(** [*p] for a token [p]: its first character, as a (signed) [char]. *)
Definition first_char (s : string) : Z :=
  match s with
  | EmptyString => 0
  | String c _ => to_int8 (Z.of_nat (nat_of_ascii c))
  end.

Section Aggregation.

(** The C library's [atof]. *)
Variable atof : string -> float.

(** Lines 199-235 of [analyze_file]: one observation folded into
    [states[stateNumOrder]]. [saved] is [strtok]'s position after the
    state code. *)
Definition fold_record (info : climate_info) (saved : string) : result climate_info :=
  let info := set_num_records (to_uint32 (info.(num_records) + 1)) info in
  let (currentTimeStamp, saved) := strtok saved delims in
  let (currentGeol, saved) := strtok saved delims in
  do geol <- deref currentGeol;
  let info := set_geoLocation (to_uint64 (info.(geoLocation) + first_char geol)) info in
  let (currentHumidity, saved) := strtok saved delims in
  do humidity <- deref currentHumidity;
  let info := set_avgHumidity (info.(avgHumidity) + atof humidity)%float info in
  let (currentSnow, saved) := strtok saved delims in
  do snw <- deref currentSnow;
  let info := set_snow (to_int32 (info.(snow) + atoi snw)) info in
  let (currentCloud, saved) := strtok saved delims in
  do cld <- deref currentCloud;
  let info := set_cloud (info.(cloud) + atof cld)%float info in
  let (currentLightning, saved) := strtok saved delims in
  do ltn <- deref currentLightning;
  let info := set_lightning (to_int32 (info.(lightning) + atoi ltn)) info in
  let (currentPressure, saved) := strtok saved delims in
  do prs <- deref currentPressure;
  let info := set_pressure (info.(pressure) + atof prs)%float info in
  let (currentTemp, saved) := strtok saved delims in
  do tmp <- deref currentTemp;
  let temp := atof tmp in
  let info := set_temperature (info.(temperature) + temp)%float info in
  if (temp <? info.(minTemp))%float then
    do ts <- deref currentTimeStamp;
    Ok (set_minTempTimestamp (to_uint64 (atoll ts)) (set_minTemp temp info))
  else if (info.(maxTemp) <? temp)%float then
    do ts <- deref currentTimeStamp;
    Ok (set_maxTempTimestamp (to_uint64 (atoll ts)) (set_maxTemp temp info))
  else Ok info.

(** Lines 191-194: the entry made for a state seen for the first time. *)
Definition new_info (c : string) : climate_info :=
  set_maxTemp 9999%float (set_minTemp (-9999)%float (set_code c calloc_info)).

Definition too_many_states (currentStates : nat) : printf_call :=
  Printf "Error: too many states (There are already %d states, should not add more)\n"
         [AInt (Z.of_nat currentStates)].

(** The body of the [while] loop of [analyze_file] on the buffer [line]
    that [fgets] filled: the new array and the new [currentStates]. *)
Definition analyze_line (line : string) (states : states_t) (currentStates num_states : nat)
  : result (states_t * nat) :=
  let (foundCode, saved) := strtok (c_str line) delims in
  do stateNumOrder <- compareOrder states foundCode currentStates;
  do (states, stateNumOrder, currentStates) <-
    (if (stateNumOrder =? -1)%Z then
       if (num_states <=? currentStates)%nat
       then Exit EXIT_FAILURE (too_many_states currentStates)
       else
         do c <- strcpy_code foundCode;
         Ok (<[currentStates := Some (new_info c)]> states, currentStates, S currentStates)
     else Ok (states, Z.to_nat stateNumOrder, currentStates));
  do info <- deref (entry states stateNumOrder);
  do info <- fold_record info saved;
  Ok (<[stateNumOrder := Some info]> states, currentStates).

(** The [while (fgets(line, line_sz, file) != NULL)] loop. Every round
    takes at least one character from the stream, so [rounds] rounds are
    enough for a stream of [rounds] characters. *)
Fixpoint analyze_loop (rounds : nat) (file : string) (states : states_t)
    (currentStates num_states : nat) : result states_t :=
  match rounds with
  | O => Ok states
  | S rounds' =>
      match fgets line_sz file with
      | None => Ok states
      | Some (line, file') =>
          do (states, currentStates) <- analyze_line line states currentStates num_states;
          analyze_loop rounds' file' states currentStates num_states
      end
  end.

(** [analyze_file] on the contents of the open file; the result is the
    array [states] as the call leaves it. *)
Definition analyze_file (file : string) (states : states_t) (num_states : nat)
  : result states_t :=
  let currentStates := countStates states num_states in
  analyze_loop (String.length file) file states currentStates num_states.

End Aggregation.

(** An [unsigned int] converted to [double] (exact). *)
Definition double_of_uint (n : Z) : float := double_of_Z n.

(** The body of the second loop of [print_report]. *)
Definition state_block (info : climate_info) : list printf_call :=
  let MAX := (info.(maxTempTimestamp) / 1000)%Z in
  let MIN := (info.(minTempTimestamp) / 1000)%Z in
  let aTemp := (info.(temperature) / double_of_uint info.(num_records) * 1.8 - 459.67)%float in
  let lTemp := (info.(minTemp) * 1.8 - 459.67)%float in
  let hTemp := (info.(maxTemp) * 1.8 - 459.67)%float in
  [ Printf "-- State: %s --\n" [AStr info.(code)];
    Printf "Number of Records: %d\n" [AUInt info.(num_records)];
    Printf "Average Humidity: %.1f%%\n"
           [ADouble (info.(avgHumidity) / double_of_uint info.(num_records))%float];
    Printf "Average Temperature: %.1fF\n" [ADouble aTemp];
    Printf "Max Temperature: %.1fF\n" [ADouble hTemp];
    Printf "Max Temperature on: %s" [ACtime MAX];
    Printf "Min Temperature: %.1fF\n" [ADouble lTemp];
    Printf "Min Temperature on: %s" [ACtime MIN];
    Printf "Lightning Strikes: %d\n" [AInt info.(lightning)];
    Printf "Records with Snow Cover: %d\n" [AInt info.(snow)];
    Printf "Average Cloud Cover: %.1lf%% \n"
           [ADouble (info.(cloud) / double_of_uint info.(num_records))%float] ].

(** The first loop of [print_report]: every entry that is not [NULL]. *)
Definition states_found (states : states_t) (num_states : nat) : list printf_call :=
  flat_map (fun i => match entry states i with
                     | Some info => [Printf "%s " [AStr info.(code)]]
                     | None => []
                     end) (seq 0 num_states).

(** The second loop: it stops at the first [NULL] entry. *)
Fixpoint report_loop (rounds : nat) (states : states_t) (num_states i : nat)
  : list printf_call :=
  match rounds with
  | O => []
  | S rounds' =>
      if (i <? num_states)%nat then
        match entry states i with
        | Some info => state_block info ++ report_loop rounds' states num_states (S i)
        | None => []
        end
      else []
  end.

Definition print_report (states : states_t) (num_states : nat) : list printf_call :=
  [Printf "States found: " []] ++ states_found states num_states
  ++ [Printf "\n" []] ++ report_loop num_states states num_states 0.

(** How the process ends. *)
Inductive termination :=
| Returned (status : Z)     (* [main] returns *)
| Exited (status : Z)       (* [exit] was called *)
| Undefined.                (* undefined behaviour was reached *)

Record outcome := mk_outcome {
  term : termination;
  stderr : list printf_call;
  stdout : list printf_call
}.

Definition cannot_open (i : Z) : printf_call :=
  Printf "Could not open file #%d for reading." [AInt i].

Section Main.

Variable atof : string -> float.

(** [fopen(path, "r")]: the contents of the file, or [None] for [NULL]. *)
Variable fopen : string -> option string.

(** The [for] loop of [main] from argument [i] on, and the report. *)
Fixpoint main_loop (argv : list string) (i : Z) (states : states_t)
    (err : list printf_call) : outcome :=
  match argv with
  | [] => mk_outcome (Returned 0) err (print_report states NUM_STATES)
  | path :: argv' =>
      match fopen path with
      | None => main_loop argv' (i + 1) states (err ++ [cannot_open i])
      | Some file =>
          match analyze_file atof file states NUM_STATES with
          | Ok states' => main_loop argv' (i + 1) states' err
          | Exit status msg => mk_outcome (Exited status) (err ++ [msg]) []
          | Undef => mk_outcome Undefined err []
          end
      end
  end.

(** [main]: [prog] is [argv[0]], [argv] the arguments after it. *)
Definition main (prog : string) (argv : list string) : outcome :=
  match argv with
  | [] => mk_outcome (Returned EXIT_FAILURE)
            [Printf "Usage: %s tdv_file1 tdv_file2 ... tdv_fileN \n" [AStr prog]] []
  | _ :: _ => main_loop argv 1 (replicate NUM_STATES None) []
  end.

End Main.

(** ** The table of accumulators, and what the statements below use *)

(** The array that holds the accumulators [tbl] in its first entries and
    [NULL] in the others. *)
Definition repr (num_states : nat) (tbl : list climate_info) : states_t :=
  (Some <$> tbl) ++ replicate (num_states - length tbl) None.

(** The position of the first accumulator with code [c]. *)
Fixpoint index_of (c : string) (tbl : list climate_info) : option nat :=
  match tbl with
  | [] => None
  | info :: tbl' => if String.eqb info.(code) c then Some O else S <$> index_of c tbl'
  end.

(** The first accumulator with code [c]. *)
Fixpoint find_info (c : string) (tbl : list climate_info) : option climate_info :=
  match tbl with
  | [] => None
  | info :: tbl' => if String.eqb info.(code) c then Some info else find_info c tbl'
  end.

(** The lines the loop of [analyze_file] gets from [fgets], in order. *)
Fixpoint read_lines_loop (rounds : nat) (file : string) : list string :=
  match rounds with
  | O => []
  | S rounds' =>
      match fgets line_sz file with
      | None => []
      | Some (line, file') => line :: read_lines_loop rounds' file'
      end
  end.

Definition read_lines (file : string) : list string :=
  read_lines_loop (String.length file) file.

(** All tokens [strtok] finds in [s], in order. *)
Fixpoint tokens_loop (rounds : nat) (s : string) : list string :=
  match rounds with
  | O => []
  | S rounds' =>
      match strtok s delims with
      | (None, _) => []
      | (Some t, s') => t :: tokens_loop rounds' s'
      end
  end.

Definition tokens (s : string) : list string := tokens_loop (String.length s) s.

(** Token [k] of a line (the empty string when there is none), and the
    state code of a line: its first token. *)
Definition field (k : nat) (line : string) : string :=
  default EmptyString (tokens (c_str line) !! k).

Definition line_code (line : string) : option string :=
  fst (strtok (c_str line) delims).

Definition line_saved (line : string) : string :=
  snd (strtok (c_str line) delims).

(** The lines of state [c] among [lines], and the state codes in the
    order of their lines. *)
Definition lines_of (c : string) (lines : list string) : list string :=
  filter (fun l => line_code l = Some c) lines.

Definition codes_of (lines : list string) : list string := omap line_code lines.

(** First-seen order: every code once, in the order of first occurrence. *)
Definition first_seen_step (acc : list string) (c : string) : list string :=
  if bool_decide (c ∈ acc) then acc else acc ++ [c].

Definition first_seen (codes : list string) : list string :=
  fold_left first_seen_step codes [].

(** Left-to-right sum of doubles, as a running sum computes it. *)
Definition float_sum (l : list float) : float := fold_left PrimFloat.add l 0%float.


(** The state codes of the per-state blocks of a report, in order, and
    those of its summary line. *)
Definition block_codes (out : list printf_call) : list string :=
  omap (fun p => match p with
                 | Printf "-- State: %s --\n" [AStr c] => Some c
                 | _ => None
                 end) out.

Definition found_codes (out : list printf_call) : list string :=
  omap (fun p => match p with
                 | Printf "%s " [AStr c] => Some c
                 | _ => None
                 end) out.

(** A text line with the given fields: joined by tabs, ended by a
    newline. A field is plain when it has no tab, newline or NUL. *)
Fixpoint join_tabs (fields : list string) : string :=
  match fields with
  | [] => EmptyString
  | [f] => f
  | f :: rest => String.append f (String TAB (join_tabs rest))
  end.

Definition tdv (fields : list string) : string :=
  String.append (join_tabs fields) (String LF EmptyString).

Fixpoint plain (f : string) : bool :=
  match f with
  | EmptyString => true
  | String c r => negb (is_delim delims c) && negb (Ascii.eqb c NUL) && plain r
  end.

Section Table.

Variable atof : string -> float.

(** The observation with tokens [ts] ... [tp] (time stamp, geolocation,
    humidity, snow, cloud cover, lightning, pressure, temperature) folded
    into [info]: what [fold_record] computes when all tokens are there. *)
Definition fold_obs (info : climate_info) (ts g h sn cl lt pr tp : string) : climate_info :=
  let info := set_num_records (to_uint32 (info.(num_records) + 1)) info in
  let info := set_geoLocation (to_uint64 (info.(geoLocation) + first_char g)) info in
  let info := set_avgHumidity (info.(avgHumidity) + atof h)%float info in
  let info := set_snow (to_int32 (info.(snow) + atoi sn)) info in
  let info := set_cloud (info.(cloud) + atof cl)%float info in
  let info := set_lightning (to_int32 (info.(lightning) + atoi lt)) info in
  let info := set_pressure (info.(pressure) + atof pr)%float info in
  let temp := atof tp in
  let info := set_temperature (info.(temperature) + temp)%float info in
  if (temp <? info.(minTemp))%float then
    set_minTempTimestamp (to_uint64 (atoll ts)) (set_minTemp temp info)
  else if (info.(maxTemp) <? temp)%float then
    set_maxTempTimestamp (to_uint64 (atoll ts)) (set_maxTemp temp info)
  else info.

(** The loop body of [analyze_file] on the table of accumulators. *)
Definition tbl_step (num_states : nat) (line : string) (tbl : list climate_info)
  : result (list climate_info) :=
  match line_code line with
  | None => Undef
  | Some c =>
      match index_of c tbl with
      | Some i =>
          do info <- deref (tbl !! i);
          do info' <- fold_record atof info (line_saved line);
          Ok (<[i := info']> tbl)
      | None =>
          if (num_states <=? length tbl)%nat
          then Exit EXIT_FAILURE (too_many_states (length tbl))
          else
            do c' <- strcpy_code (Some c);
            do info' <- fold_record atof (new_info c') (line_saved line);
            Ok (tbl ++ [info'])
      end
  end.

Fixpoint tbl_steps (num_states : nat) (lines : list string) (tbl : list climate_info)
  : result (list climate_info) :=
  match lines with
  | [] => Ok tbl
  | line :: lines' =>
      do tbl' <- tbl_step num_states line tbl;
      tbl_steps num_states lines' tbl'
  end.

(** One accumulator fed the lines [lines], one after the other. *)
Fixpoint fold_records (info : climate_info) (lines : list string) : result climate_info :=
  match lines with
  | [] => Ok info
  | line :: lines' =>
      do info' <- fold_record atof info (line_saved line);
      fold_records info' lines'
  end.

Variable fopen : string -> option string.

(** The lines of all files that open, in the order of the arguments. *)
Definition all_lines (argv : list string) : list string :=
  concat (omap (fun path => read_lines <$> fopen path) argv).

(** The messages for the arguments that do not open; [i] is the number of
    the first argument of [argv]. *)
Fixpoint open_errors (argv : list string) (i : Z) : list printf_call :=
  match argv with
  | [] => []
  | path :: argv' =>
      match fopen path with
      | None => cannot_open i :: open_errors argv' (i + 1)
      | Some _ => open_errors argv' (i + 1)
      end
  end.

End Table.

(** [n] copies of a line, one after the other, and the concatenation of
    a list of strings. *)
Fixpoint copies (n : nat) (line : string) : string :=
  match n with
  | O => EmptyString
  | S n' => String.append line (copies n' line)
  end.

Fixpoint cat (l : list string) : string :=
  match l with
  | [] => EmptyString
  | s :: l' => String.append s (cat l')
  end.

(** No newline in [s]. *)
Fixpoint no_LF (s : string) : bool :=
  match s with
  | EmptyString => true
  | String c r => negb (Ascii.eqb c LF) && no_LF r
  end.

(** The stream is empty or its last character is a newline. *)
Fixpoint ends_LF (s : string) : bool :=
  match s with
  | EmptyString => true
  | String c r => match r with
                  | EmptyString => Ascii.eqb c LF
                  | String _ _ => ends_LF r
                  end
  end.

(** Left-to-right sum of integers. *)
Definition Z_sum (l : list Z) : Z := fold_left Z.add l 0%Z.

(** A temperature that is neither below the initial [minTemp] nor above
    the initial [maxTemp]. *)
Definition in_initial_range (t : float) : bool :=
  negb (t <? -9999)%float && negb (9999 <? t)%float.

(** The number of maximal runs of characters other than the delimiters
    in [s]; [fresh] tells that the character before [s] was a delimiter, or
    that [s] is the start of the string. *)
Fixpoint ntok (fresh : bool) (s : string) : nat :=
  match s with
  | EmptyString => 0
  | String c r =>
      if is_delim delims c then ntok true r
      else (if fresh then 1 else 0) + ntok false r
  end.

(** ** Sample inputs *)

Definition line_TN : string :=
  tdv ["TN"; "1000"; "geo"; "50.0"; "0"; "60.0"; "1"; "1000.0"; "290.0"].
Definition line_WA : string :=
  tdv ["WA"; "2000"; "c23"; "61.5"; "1"; "40.0"; "0"; "1010.0"; "280.5"].
Definition line_TN_cold : string :=
  tdv ["TN"; "3000"; "geo"; "70.0"; "1"; "10.0"; "0"; "990.0"; "-10000.5"].
Definition line_5_fields : string := tdv ["TN"; "1000"; "geo"; "50.0"; "0"].

(** The line for TN with an empty second field and a tenth field. *)
Definition line_TN_extra : string :=
  tdv ["TN"; ""; "1000"; "geo"; "50.0"; "0"; "60.0"; "1"; "1000.0"; "290.0"; "extra"].

(** Two data files; no other path opens. *)
Definition sample_fs (path : string) : option string :=
  if String.eqb path "tn.tdv" then Some (String.append line_TN line_TN_cold)
  else if String.eqb path "wa.tdv" then Some (String.append line_WA line_TN)
  else None.





(** One physical line of 138 characters: an observation for TN, tabs up
    to column 99, an observation for WA, and the newline. *)
Definition long_body : string :=
  String.append
    (join_tabs ["TN"; "1000"; "geo"; "50.0"; "0"; "60.0"; "1"; "1000.0"; "290.0"])
    (String.append (copies 61 (String TAB EmptyString))
       (join_tabs ["WA"; "2000"; "c23"; "61.5"; "1"; "40.0"; "0"; "1010.0"; "280.5"])).

Definition long_line : string := String.append long_body (String LF EmptyString).

(** One observation for TN in a physical line of 102 characters: the
    temperature is written with 64 decimals. *)
Definition long_TN : string :=
  tdv ["TN"; "1000"; "geo"; "50.0"; "0"; "60.0"; "1"; "1000.0";
       String.append "290." (copies 64 "0")].

(** A file of [2^32] lines for one state. *)
Definition big_file : string := copies (2 ^ 32) line_TN.

End Climate.

(** * Properties *)

Import Libc Climate.

(** ** The model on sample inputs *)

Example fgets_two_lines :
  fgets line_sz (String.append line_TN line_WA) = Some (line_TN, line_WA)
  /\ fgets line_sz EmptyString = None.
Proof. split; reflexivity. Qed.

Example strtok_calls :
  strtok (tdv ["TN"; ""; "1000"]) delims = (Some "TN", tdv [""; "1000"])
  /\ strtok (tdv [""; "1000"]) delims = (Some "1000", "")
  /\ strtok "" delims = (None, "").
Proof. repeat split. Qed.

Example tokens_line_TN :
  tokens line_TN = ["TN"; "1000"; "geo"; "50.0"; "0"; "60.0"; "1"; "1000.0"; "290.0"].
Proof. reflexivity. Qed.

Example atoi_atoll_values :
  atoi "0.0" = 0%Z /\ atoi " -12x" = (-12)%Z /\ atoi "4294967297" = 1%Z
  /\ atoll "1428300000000" = 1428300000000%Z.
Proof. repeat split. Qed.

Example atof_decimal_values :
  atof_decimal "290.0" = 290%float
  /\ atof_decimal "277.58716" = 277.58716%float
  /\ atof_decimal "-10000.5" = (-10000.5)%float.
Proof. repeat split; vm_compute; reflexivity. Qed.

(** The report for the two sample files: TN has three records, WA one. *)
Example report_sample :
  let run := main atof_decimal sample_fs "climate" ["tn.tdv"; "wa.tdv"] in
  term run = Returned 0
  /\ stderr run = []
  /\ firstn 6 (stdout run)
     = [ Printf "States found: " [];
         Printf "%s " [AStr "TN"];
         Printf "%s " [AStr "WA"];
         Printf "\n" [];
         Printf "-- State: %s --\n" [AStr "TN"];
         Printf "Number of Records: %d\n" [AUInt 3] ]
  /\ length (stdout run) = 26.
Proof. repeat split; vm_compute; reflexivity. Qed.

Example usage_error :
  main atof_decimal sample_fs "climate" []
  = mk_outcome (Returned EXIT_FAILURE)
               [Printf "Usage: %s tdv_file1 tdv_file2 ... tdv_fileN \n" [AStr "climate"]] [].
Proof. reflexivity. Qed.

(** ** The array and the table of accumulators *)

Lemma entry_repr ns (tbl : list climate_info) i : entry (repr ns tbl) i = tbl !! i.
Proof.
  unfold entry, repr. destruct (decide (i < length tbl)) as [Hlt|Hge].
  - rewrite lookup_app_l by (by rewrite length_fmap).
    rewrite list_lookup_fmap. by destruct (tbl !! i).
  - rewrite lookup_app_r by (rewrite length_fmap; lia).
    rewrite (lookup_ge_None_2 tbl) by lia.
    destruct (replicate _ _ !! _) as [x|] eqn:E; [|done].
    apply lookup_replicate in E as [-> _]. done.
Qed.

Lemma length_repr ns (tbl : list climate_info) :
  length tbl <= ns -> length (repr ns tbl) = ns.
Proof. intros. unfold repr. rewrite length_app, length_fmap, length_replicate. lia. Qed.

Lemma repr_snoc ns (tbl : list climate_info) x :
  length tbl < ns -> <[length tbl := Some x]> (repr ns tbl) = repr ns (tbl ++ [x]).
Proof.
  intros Hlt. unfold repr.
  replace (length tbl) with (length (Some <$> tbl) + 0) at 1 by (rewrite length_fmap; lia).
  rewrite insert_app_r, length_app. simpl.
  destruct (ns - length tbl) as [|k] eqn:E; [lia|].
  replace (ns - (length tbl + 1)) with k by lia.
  simpl. rewrite fmap_app. simpl. by rewrite <- app_assoc.
Qed.

Lemma repr_insert ns (tbl : list climate_info) i x :
  i < length tbl -> <[i := Some x]> (repr ns tbl) = repr ns (<[i := x]> tbl).
Proof.
  intros Hlt. unfold repr.
  rewrite insert_app_l by (by rewrite length_fmap).
  by rewrite list_fmap_insert, length_insert.
Qed.

Lemma index_of_Some c tbl i :
  index_of c tbl = Some i ->
  exists info, tbl !! i = Some info /\ info.(code) = c
               /\ forall j info', j < i -> tbl !! j = Some info' -> info'.(code) <> c.
Proof.
  revert i. induction tbl as [|x tbl IH]; intros i; simpl; [done|].
  destruct (String.eqb (code x) c) eqn:E.
  - intros [= <-]. exists x. apply String.eqb_eq in E. repeat split; auto. lia.
  - destruct (index_of c tbl) as [k|]; simpl; [|done].
    intros [= <-]. destruct (IH k eq_refl) as (info & H1 & H2 & H3).
    exists info. repeat split; auto.
    intros [|j] info' Hj; simpl.
    + intros [= <-]. by apply String.eqb_neq in E.
    + apply H3. lia.
Qed.

Lemma index_of_None c tbl : index_of c tbl = None <-> c ∉ code <$> tbl.
Proof.
  induction tbl as [|x tbl IH]; simpl.
  - split; [intros _; apply not_elem_of_nil | done].
  - rewrite not_elem_of_cons, <- IH. destruct (String.eqb (code x) c) eqn:E.
    + apply String.eqb_eq in E. split; [done|]. intros [? _]. congruence.
    + apply String.eqb_neq in E.
      destruct (index_of c tbl); simpl; split; try done; intros H.
      by destruct H.
Qed.

Lemma index_of_lt c tbl i : index_of c tbl = Some i -> i < length tbl.
Proof.
  intros H. destruct (index_of_Some _ _ _ H) as (info & H1 & _).
  by apply lookup_lt_Some in H1.
Qed.

Lemma countStates_loop_repr ns tbl rounds num :
  num <= length tbl -> length tbl <= ns -> length tbl <= num + rounds ->
  countStates_loop rounds (repr ns tbl) ns num = length tbl.
Proof.
  revert num. induction rounds as [|r IH]; intros num H1 H2 H3; simpl; [lia|].
  rewrite entry_repr.
  destruct (decide (num < length tbl)) as [Hlt|Hge].
  - destruct (lookup_lt_is_Some_2 tbl num Hlt) as [x Hx].
    replace (num <? ns)%nat with true by (symmetry; apply Nat.ltb_lt; lia).
    rewrite Hx. rewrite bool_decide_eq_true_2 by eauto. simpl.
    apply IH; lia.
  - assert (num = length tbl) as -> by lia.
    rewrite (lookup_ge_None_2 tbl) by lia.
    rewrite bool_decide_eq_false_2 by (intros [? ?]; done).
    by rewrite andb_false_r.
Qed.

Lemma countStates_repr ns tbl :
  length tbl <= ns -> countStates (repr ns tbl) ns = length tbl.
Proof. intros. unfold countStates. apply countStates_loop_repr; lia. Qed.

Lemma compareOrder_loop_repr ns tbl c rounds order :
  order + rounds = length tbl ->
  compareOrder_loop rounds (repr ns tbl) (Some c) (length tbl) order
  = Ok (match index_of c (drop order tbl) with
        | Some i => Z.of_nat (order + i)
        | None => (-1)%Z
        end).
Proof.
  revert order. induction rounds as [|r IH]; intros order Hlen; simpl.
  - rewrite drop_ge by lia. done.
  - replace (order <? length tbl)%nat with true by (symmetry; apply Nat.ltb_lt; lia).
    rewrite entry_repr.
    destruct (lookup_lt_is_Some_2 tbl order ltac:(lia)) as [x Hx].
    rewrite Hx. simpl. rewrite (drop_S _ _ _ Hx). simpl.
    destruct (String.eqb (code x) c).
    + by rewrite Nat.add_0_r.
    + rewrite IH by lia. destruct (index_of c (drop (S order) tbl)); simpl; [|done].
      do 2 f_equal. lia.
Qed.

Lemma compareOrder_repr ns tbl c :
  compareOrder (repr ns tbl) (Some c) (length tbl)
  = Ok (match index_of c tbl with Some i => Z.of_nat i | None => (-1)%Z end).
Proof. unfold compareOrder. by rewrite compareOrder_loop_repr. Qed.

Lemma compareOrder_repr_NULL ns tbl :
  compareOrder (repr ns tbl) None (length tbl)
  = match tbl with [] => Ok (-1)%Z | _ => Undef end.
Proof.
  unfold compareOrder. destruct tbl as [|x tbl]; [done|].
  remember (x :: tbl) as t eqn:Et. replace (length t) with (S (length tbl)) by by subst.
  cbn [compareOrder_loop]. rewrite entry_repr. by subst.
Qed.

(** ** Reading lines with [fgets] *)

Lemma append_cons c (s1 s2 : string) :
  String.append (String c s1) s2 = String c (String.append s1 s2).
Proof. reflexivity. Qed.

Lemma append_nil_l (s : string) : String.append EmptyString s = s.
Proof. reflexivity. Qed.

Lemma length_append (s1 s2 : string) :
  String.length (String.append s1 s2) = String.length s1 + String.length s2.
Proof.
  induction s1 as [|c s1 IH]; [done|]. rewrite append_cons. simpl. by rewrite IH.
Qed.

Lemma append_assoc (s1 s2 s3 : string) :
  String.append (String.append s1 s2) s3 = String.append s1 (String.append s2 s3).
Proof.
  induction s1 as [|c s1 IH]; [done|]. rewrite !append_cons. by rewrite IH.
Qed.

Lemma append_nil_r (s : string) : String.append s EmptyString = s.
Proof. induction s as [|c s IH]; [done|]. rewrite append_cons. by rewrite IH. Qed.

Lemma fgets_chars_split room stream l r :
  fgets_chars room stream = (l, r) ->
  stream = String.append l r /\ String.length l <= room.
Proof.
  revert stream l r. induction room as [|room IH]; intros stream l r; simpl.
  - intros [= <- <-]. split; [done|simpl; lia].
  - destruct stream as [|c rest]; [intros [= <- <-]; split; [done|simpl; lia]|].
    destruct (Ascii.eqb c LF).
    + intros [= <- <-]. split; [done|simpl; lia].
    + destruct (fgets_chars room rest) as [l' r'] eqn:E. intros [= <- <-].
      destruct (IH _ _ _ E) as [-> Hl]. split; [done|simpl; lia].
Qed.

Lemma fgets_split size stream line rest :
  fgets size stream = Some (line, rest) ->
  stream = String.append line rest /\ String.length line <= size - 1.
Proof.
  unfold fgets. destruct stream; [done|]. intros [= H]. by apply fgets_chars_split.
Qed.

Lemma fgets_chars_nonempty room c s l r :
  fgets_chars (S room) (String c s) = (l, r) -> 0 < String.length l.
Proof.
  simpl. destruct (Ascii.eqb c LF); [intros [= <- _]; simpl; lia|].
  destruct (fgets_chars room s). intros [= <- _]. simpl. lia.
Qed.

(** A call of [fgets] that returns a line takes at least one character. *)
Lemma fgets_progress stream line rest :
  fgets line_sz stream = Some (line, rest) ->
  String.length rest < String.length stream.
Proof.
  intros H. pose proof (fgets_split _ _ _ _ H) as [Hs _].
  destruct stream as [|c s]; [done|].
  change (Some (fgets_chars (S 98) (String c s)) = Some (line, rest)) in H.
  apply (inj Some) in H. apply fgets_chars_nonempty in H.
  rewrite Hs, length_append. lia.
Qed.

Lemma read_lines_loop_rounds r1 r2 file :
  String.length file <= r1 -> String.length file <= r2 ->
  read_lines_loop r1 file = read_lines_loop r2 file.
Proof.
  revert r2 file. induction r1 as [|r1 IH]; intros r2 file H1 H2.
  - destruct file; [|simpl in H1; lia]. by destruct r2.
  - destruct r2 as [|r2]; [destruct file; [done|simpl in H2; lia]|].
    simpl. destruct (fgets line_sz file) as [[line rest]|] eqn:E; [|done].
    apply fgets_progress in E. f_equal. apply IH; lia.
Qed.

Lemma read_lines_unfold file :
  read_lines file = match fgets line_sz file with
                    | None => []
                    | Some (line, rest) => line :: read_lines rest
                    end.
Proof.
  unfold read_lines at 1. destruct file as [|c s]; [done|].
  change (String.length (String c s)) with (S (String.length s)).
  cbn [read_lines_loop].
  destruct (fgets line_sz (String c s)) as [[line rest]|] eqn:E; [|done].
  apply fgets_progress in E. simpl in E. f_equal.
  apply read_lines_loop_rounds; lia.
Qed.

Section Refinement.

Variable atof : string -> float.

(** On an array that holds a table, the loop body is [tbl_step]. *)
Lemma analyze_line_repr ns line tbl :
  length tbl <= ns -> 0 < ns ->
  analyze_line atof line (repr ns tbl) (length tbl) ns
  = do tbl' <- tbl_step atof ns line tbl; Ok (repr ns tbl', length tbl').
Proof.
  intros Hlen Hns. unfold analyze_line, tbl_step, line_code, line_saved.
  destruct (strtok (c_str line) delims) as [[c|] saved]; simpl.
  - rewrite compareOrder_repr. simpl.
    destruct (index_of c tbl) as [i|] eqn:Hi.
    + replace (Z.of_nat i =? -1)%Z with false by (symmetry; apply Z.eqb_neq; lia).
      simpl. rewrite Nat2Z.id, entry_repr.
      pose proof (index_of_lt _ _ _ Hi) as Hlt.
      destruct (tbl !! i) as [info|]; simpl; [|done].
      destruct (fold_record atof info saved) as [info'| |]; simpl; try done.
      by rewrite repr_insert, length_insert.
    + simpl. destruct (ns <=? length tbl)%nat eqn:Hcap; simpl; [done|].
      apply Nat.leb_gt in Hcap.
      unfold strcpy_code. simpl.
      destruct (String.length c <=? 2)%nat; simpl; [|done].
      unfold entry. rewrite list_lookup_insert_eq by (rewrite length_repr; lia).
      simpl. destruct (fold_record atof (new_info c) saved) as [info'| |]; simpl; try done.
      rewrite list_insert_insert_eq, repr_snoc by lia.
      rewrite length_app. simpl. do 3 f_equal. lia.
  - rewrite compareOrder_repr_NULL. destruct tbl; simpl; [|done].
    destruct ns; [lia|]. done.
Qed.

Lemma tbl_step_length ns line tbl tbl' :
  tbl_step atof ns line tbl = Ok tbl' -> length tbl <= ns -> length tbl' <= ns.
Proof.
  unfold tbl_step. destruct (line_code line) as [c|]; [|done].
  destruct (index_of c tbl) as [i|].
  - destruct (tbl !! i) as [info|]; simpl; [|done].
    destruct (fold_record atof info _); simpl; try done.
    intros [= <-]. by rewrite length_insert.
  - destruct (ns <=? length tbl)%nat eqn:Hcap; [done|]. apply Nat.leb_gt in Hcap.
    destruct (strcpy_code (Some c)); simpl; try done.
    destruct (fold_record atof _ _); simpl; try done.
    intros [= <-]. rewrite length_app. simpl. lia.
Qed.

Lemma tbl_steps_length ns lines tbl tbl' :
  tbl_steps atof ns lines tbl = Ok tbl' -> length tbl <= ns -> length tbl' <= ns.
Proof.
  revert tbl. induction lines as [|l lines IH]; intros tbl; simpl.
  - by intros [= <-].
  - destruct (tbl_step atof ns l tbl) as [t| |] eqn:E; simpl; try done.
    intros H Hlen. eapply IH; [done|]. by eapply tbl_step_length.
Qed.

Lemma tbl_steps_app ns l1 l2 tbl :
  tbl_steps atof ns (l1 ++ l2) tbl
  = do tbl' <- tbl_steps atof ns l1 tbl; tbl_steps atof ns l2 tbl'.
Proof.
  revert tbl. induction l1 as [|l l1 IH]; intros tbl; simpl; [done|].
  destruct (tbl_step atof ns l tbl); simpl; auto.
Qed.

(** The loop of [analyze_file] folds the lines [fgets] returns, in order. *)
Lemma analyze_loop_repr ns rounds file tbl :
  String.length file <= rounds -> length tbl <= ns -> 0 < ns ->
  analyze_loop atof rounds file (repr ns tbl) (length tbl) ns
  = do tbl' <- tbl_steps atof ns (read_lines file) tbl; Ok (repr ns tbl').
Proof.
  revert file tbl. induction rounds as [|r IH]; intros file tbl Hr Hlen Hns.
  - destruct file; [done|simpl in Hr; lia].
  - cbn [analyze_loop]. rewrite read_lines_unfold.
    destruct (fgets line_sz file) as [[line rest]|] eqn:E; [|done].
    apply fgets_progress in E. rewrite analyze_line_repr by done.
    cbn [tbl_steps].
    destruct (tbl_step atof ns line tbl) as [t| |] eqn:Et; simpl; try done.
    apply IH; [lia| |done]. by eapply tbl_step_length.
Qed.

Lemma analyze_file_repr ns file tbl :
  length tbl <= ns -> 0 < ns ->
  analyze_file atof file (repr ns tbl) ns
  = do tbl' <- tbl_steps atof ns (read_lines file) tbl; Ok (repr ns tbl').
Proof.
  intros. unfold analyze_file. rewrite countStates_repr by done.
  by apply analyze_loop_repr.
Qed.

End Refinement.

(** ** The loops run to their end

    Each loop of the program is a [Fixpoint] on a number of rounds. The
    number given is enough: with any larger number the result is the
    same, so no loop is cut short. *)

Lemma countStates_loop_rounds r1 r2 (states : states_t) ns num :
  ns <= num + r1 -> ns <= num + r2 ->
  countStates_loop r1 states ns num = countStates_loop r2 states ns num.
Proof.
  revert r2 num. induction r1 as [|r1 IH]; intros r2 num H1 H2.
  - destruct r2 as [|r2]; [done|]. simpl.
    by replace (num <? ns)%nat with false by (symmetry; apply Nat.ltb_ge; lia).
  - destruct r2 as [|r2]; simpl.
    + by replace (num <? ns)%nat with false by (symmetry; apply Nat.ltb_ge; lia).
    + destruct ((num <? ns)%nat && bool_decide (is_Some (entry states num))); [|done].
      apply IH; lia.
Qed.

Lemma compareOrder_loop_rounds r1 r2 (states : states_t) codex cs order :
  cs <= order + r1 -> cs <= order + r2 ->
  compareOrder_loop r1 states codex cs order = compareOrder_loop r2 states codex cs order.
Proof.
  revert r2 order. induction r1 as [|r1 IH]; intros r2 order H1 H2.
  - destruct r2 as [|r2]; [done|]. simpl.
    by replace (order <? cs)%nat with false by (symmetry; apply Nat.ltb_ge; lia).
  - destruct r2 as [|r2]; simpl.
    + by replace (order <? cs)%nat with false by (symmetry; apply Nat.ltb_ge; lia).
    + destruct (order <? cs)%nat; [|done]. destruct (entry states order); [|done].
      destruct codex as [cx|]; [|done]. simpl.
      destruct (String.eqb (code c) cx); [done|]. apply IH; lia.
Qed.

Lemma report_loop_rounds r1 r2 (states : states_t) ns i :
  ns <= i + r1 -> ns <= i + r2 ->
  report_loop r1 states ns i = report_loop r2 states ns i.
Proof.
  revert r2 i. induction r1 as [|r1 IH]; intros r2 i H1 H2.
  - destruct r2 as [|r2]; [done|]. simpl.
    by replace (i <? ns)%nat with false by (symmetry; apply Nat.ltb_ge; lia).
  - destruct r2 as [|r2]; cbn [report_loop].
    + by replace (i <? ns)%nat with false by (symmetry; apply Nat.ltb_ge; lia).
    + destruct (i <? ns)%nat; [|done]. destruct (entry states i); [|done].
      apply (f_equal (app _)). apply IH; lia.
Qed.

Lemma analyze_loop_rounds atof r1 r2 file (states : states_t) cs ns :
  String.length file <= r1 -> String.length file <= r2 ->
  analyze_loop atof r1 file states cs ns = analyze_loop atof r2 file states cs ns.
Proof.
  revert r2 file states cs. induction r1 as [|r1 IH]; intros r2 file states cs H1 H2.
  - destruct file; [|simpl in H1; lia]. by destruct r2.
  - destruct r2 as [|r2]; [destruct file; [done|simpl in H2; lia]|].
    simpl. destruct (fgets line_sz file) as [[line rest]|] eqn:E; [|done].
    apply fgets_progress in E.
    destruct (analyze_line atof line states cs ns) as [[st' cs']| |]; simpl; [|done..].
    apply IH; lia.
Qed.

(** ** The report and [main] over the table *)

Lemma states_found_seq (tbl : list climate_info) ns n k :
  flat_map (fun i => match entry (repr ns tbl) i with
                     | Some info => [Printf "%s " [AStr info.(code)]]
                     | None => []
                     end) (seq k n)
  = map (fun info => Printf "%s " [AStr info.(code)]) (take n (drop k tbl)).
Proof.
  revert k. induction n as [|n IH]; intros k; [done|].
  cbn [seq flat_map]. rewrite IH, entry_repr.
  destruct (tbl !! k) as [x|] eqn:E.
  - by rewrite (drop_S _ _ _ E).
  - apply lookup_ge_None in E. rewrite !drop_ge by lia. by rewrite !take_nil.
Qed.

Lemma states_found_repr (tbl : list climate_info) ns :
  length tbl <= ns ->
  states_found (repr ns tbl) ns = map (fun info => Printf "%s " [AStr info.(code)]) tbl.
Proof.
  intros. unfold states_found. rewrite states_found_seq, drop_0, take_ge; [done|lia].
Qed.

Lemma report_loop_repr (tbl : list climate_info) ns rounds i :
  i + rounds = ns -> length tbl <= ns ->
  report_loop rounds (repr ns tbl) ns i = flat_map state_block (drop i tbl).
Proof.
  revert i. induction rounds as [|r IH]; intros i Hi Hlen.
  - rewrite drop_ge by lia. done.
  - cbn [report_loop].
    replace (i <? ns)%nat with true by (symmetry; apply Nat.ltb_lt; lia).
    rewrite entry_repr. destruct (tbl !! i) as [x|] eqn:E.
    + rewrite (drop_S _ _ _ E). cbn [flat_map]. f_equal. apply IH; lia.
    + apply lookup_ge_None in E. rewrite drop_ge by lia. done.
Qed.

(** The report of a table: the summary line, then one block per
    accumulator, in the order of the table. *)
Lemma print_report_repr (tbl : list climate_info) ns :
  length tbl <= ns ->
  print_report (repr ns tbl) ns
  = [Printf "States found: " []]
    ++ map (fun info => Printf "%s " [AStr info.(code)]) tbl
    ++ [Printf "\n" []] ++ flat_map state_block tbl.
Proof.
  intros. unfold print_report.
  rewrite states_found_repr, report_loop_repr by (done || lia). by rewrite drop_0.
Qed.

Section MainLoop.

Variable atof : string -> float.
Variable fopen : string -> option string.

Lemma all_lines_cons path argv :
  all_lines fopen (path :: argv)
  = match fopen path with Some file => read_lines file | None => [] end
    ++ all_lines fopen argv.
Proof. unfold all_lines. simpl. by destruct (fopen path). Qed.

(** [main]'s loop folds the lines of the files that open, in order, and
    reports the table they leave. *)
Lemma main_loop_spec argv i tbl err :
  length tbl <= NUM_STATES ->
  match tbl_steps atof NUM_STATES (all_lines fopen argv) tbl with
  | Ok tbl' =>
      main_loop atof fopen argv i (repr NUM_STATES tbl) err
      = mk_outcome (Returned 0) (err ++ open_errors fopen argv i)
                   (print_report (repr NUM_STATES tbl') NUM_STATES)
  | Exit status msg =>
      exists err', main_loop atof fopen argv i (repr NUM_STATES tbl) err
                   = mk_outcome (Exited status) (err' ++ [msg]) []
  | Undef =>
      exists err', main_loop atof fopen argv i (repr NUM_STATES tbl) err
                   = mk_outcome Undefined err' []
  end.
Proof.
  revert i tbl err. induction argv as [|path argv IH]; intros i tbl err Hlen.
  - simpl. by rewrite app_nil_r.
  - rewrite all_lines_cons. cbn [main_loop open_errors].
    destruct (fopen path) as [file|].
    + rewrite tbl_steps_app, analyze_file_repr by (done || (unfold NUM_STATES; lia)).
      destruct (tbl_steps atof NUM_STATES (read_lines file) tbl) as [t| |] eqn:E; simpl.
      * apply IH. by eapply tbl_steps_length.
      * by exists err.
      * by exists err.
    + rewrite app_nil_l. specialize (IH (i + 1)%Z tbl (err ++ [cannot_open i]) Hlen).
      destruct (tbl_steps atof NUM_STATES (all_lines fopen argv) tbl); [|done..].
      by rewrite IH, <- app_assoc.
Qed.

Lemma main_spec prog argv :
  argv <> [] ->
  match tbl_steps atof NUM_STATES (all_lines fopen argv) [] with
  | Ok tbl =>
      main atof fopen prog argv
      = mk_outcome (Returned 0) (open_errors fopen argv 1)
                   (print_report (repr NUM_STATES tbl) NUM_STATES)
  | Exit status msg =>
      exists err, main atof fopen prog argv = mk_outcome (Exited status) (err ++ [msg]) []
  | Undef =>
      exists err, main atof fopen prog argv = mk_outcome Undefined err []
  end.
Proof.
  intros Hne. destruct argv as [|a argv]; [done|].
  pose proof (main_loop_spec (a :: argv) 1 [] [] ltac:(simpl; lia)) as H.
  unfold main. by change (replicate NUM_STATES None) with (repr NUM_STATES []).
Qed.

End MainLoop.

(** ** Tokens *)

Lemma skip_delims_length delim s :
  String.length (skip_delims delim s) <= String.length s.
Proof.
  induction s as [|c s IH]; simpl; [done|].
  destruct (is_delim delim c); simpl; lia.
Qed.

Lemma scan_token_length delim s t r :
  scan_token delim s = (t, r) -> String.length r <= String.length s.
Proof.
  revert t r. induction s as [|c s IH]; intros t r; simpl.
  - by intros [= <- <-].
  - destruct (is_delim delim c); [intros [= <- <-]; lia|].
    destruct (scan_token delim s) as [t' r'] eqn:E. intros [= <- <-].
    specialize (IH _ _ eq_refl). lia.
Qed.

(** [strtok] returns [NULL] exactly when only delimiters are left, and
    then stays at the end of the string; a token is never empty and the
    saved position is past it. *)
Lemma strtok_NULL s delim r : strtok s delim = (None, r) -> r = EmptyString.
Proof.
  unfold strtok. destruct (skip_delims delim s) as [|c s']; [by intros [= <-]|].
  by destruct (scan_token delim (String c s')).
Qed.

Lemma strtok_progress s delim t r :
  strtok s delim = (Some t, r) -> String.length r < String.length s.
Proof.
  unfold strtok. pose proof (skip_delims_length delim s) as Hs.
  destruct (skip_delims delim s) as [|c s'] eqn:E; [done|].
  destruct (scan_token delim (String c s')) as [t' r'] eqn:Et. intros [= <- <-].
  assert (is_delim delim c = false) as Hc.
  { clear -E. induction s as [|a s IH]; simpl in E; [done|].
    destruct (is_delim delim a) eqn:Ea; [auto|]. by injection E as -> _. }
  simpl in Et. rewrite Hc in Et.
  destruct (scan_token delim s') as [t'' r''] eqn:Et'. injection Et as <- <-.
  apply scan_token_length in Et'. simpl in Hs. lia.
Qed.

Lemma tokens_loop_rounds r1 r2 s :
  String.length s <= r1 -> String.length s <= r2 ->
  tokens_loop r1 s = tokens_loop r2 s.
Proof.
  revert r2 s. induction r1 as [|r1 IH]; intros r2 s H1 H2.
  - destruct s; [|simpl in H1; lia]. by destruct r2.
  - destruct r2 as [|r2]; [destruct s; [done|simpl in H2; lia]|].
    cbn [tokens_loop]. destruct (strtok s delims) as [[t|] s'] eqn:E; [|done].
    apply strtok_progress in E. f_equal. apply IH; lia.
Qed.

Lemma tokens_unfold s :
  tokens s = match strtok s delims with
             | (None, _) => []
             | (Some t, s') => t :: tokens s'
             end.
Proof.
  unfold tokens at 1. destruct s as [|c s]; [done|].
  change (String.length (String c s)) with (S (String.length s)).
  cbn [tokens_loop].
  destruct (strtok (String c s) delims) as [[t|] s'] eqn:E; [|done].
  apply strtok_progress in E. simpl in E. f_equal.
  apply tokens_loop_rounds; lia.
Qed.

Lemma tokens_line line :
  tokens (c_str line) = match line_code line with
                        | Some c => c :: tokens (line_saved line)
                        | None => []
                        end.
Proof.
  rewrite tokens_unfold. unfold line_code, line_saved.
  by destruct (strtok (c_str line) delims) as [[c|] s].
Qed.

Section Records.

Variable atof : string -> float.

(** [fold_record] succeeds exactly when eight more tokens follow the state
    code, and then folds them as [fold_obs] does. *)
Lemma fold_record_spec info saved :
  fold_record atof info saved
  = match tokens saved with
    | ts :: g :: h :: sn :: cl :: lt :: pr :: tp :: _ =>
        Ok (fold_obs atof info ts g h sn cl lt pr tp)
    | _ => Undef
    end.
Proof.
  unfold fold_record.
  rewrite (tokens_unfold saved).
  destruct (strtok saved delims) as [[ts|] s1] eqn:E1;
    [|apply strtok_NULL in E1; subst s1; done].
  rewrite (tokens_unfold s1).
  destruct (strtok s1 delims) as [[g|] s2] eqn:E2; [|done]. cbn [deref bind].
  rewrite (tokens_unfold s2).
  destruct (strtok s2 delims) as [[h|] s3] eqn:E3; [|done]. cbn [deref bind].
  rewrite (tokens_unfold s3).
  destruct (strtok s3 delims) as [[sn|] s4] eqn:E4; [|done]. cbn [deref bind].
  rewrite (tokens_unfold s4).
  destruct (strtok s4 delims) as [[cl|] s5] eqn:E5; [|done]. cbn [deref bind].
  rewrite (tokens_unfold s5).
  destruct (strtok s5 delims) as [[lt|] s6] eqn:E6; [|done]. cbn [deref bind].
  rewrite (tokens_unfold s6).
  destruct (strtok s6 delims) as [[pr|] s7] eqn:E7; [|done]. cbn [deref bind].
  rewrite (tokens_unfold s7).
  destruct (strtok s7 delims) as [[tp|] s8] eqn:E8; [|done]. cbn [deref bind].
  unfold fold_obs. cbv zeta.
  repeat match goal with |- context [if ?b then _ else _] => destruct b end; done.
Qed.

Lemma fold_obs_code info ts g h sn cl lt pr tp :
  (fold_obs atof info ts g h sn cl lt pr tp).(code) = info.(code).
Proof.
  unfold fold_obs. cbv zeta.
  repeat match goal with |- context [if ?b then _ else _] => destruct b end; done.
Qed.

Lemma fold_obs_num_records info ts g h sn cl lt pr tp :
  (fold_obs atof info ts g h sn cl lt pr tp).(num_records)
  = to_uint32 (info.(num_records) + 1).
Proof.
  unfold fold_obs. cbv zeta.
  repeat match goal with |- context [if ?b then _ else _] => destruct b end; done.
Qed.

Lemma fold_record_code info saved info' :
  fold_record atof info saved = Ok info' -> info'.(code) = info.(code).
Proof.
  rewrite fold_record_spec.
  destruct (tokens saved) as [|ts [|g [|h [|sn [|cl [|lt [|pr [|tp rest]]]]]]]]; try done.
  intros [= <-]. apply fold_obs_code.
Qed.

Lemma fold_record_num_records info saved info' :
  fold_record atof info saved = Ok info' ->
  info'.(num_records) = to_uint32 (info.(num_records) + 1).
Proof.
  rewrite fold_record_spec.
  destruct (tokens saved) as [|ts [|g [|h [|sn [|cl [|lt [|pr [|tp rest]]]]]]]]; try done.
  intros [= <-]. apply fold_obs_num_records.
Qed.

(** [fold_record] never calls [exit]. *)
Lemma fold_record_no_exit info saved status msg :
  fold_record atof info saved <> Exit status msg.
Proof.
  rewrite fold_record_spec.
  by destruct (tokens saved) as [|ts [|g [|h [|sn [|cl [|lt [|pr [|tp rest]]]]]]]].
Qed.

End Records.

(** ** First-seen order *)

Lemma first_seen_step_prefix acc c : exists ext, first_seen_step acc c = acc ++ ext.
Proof.
  unfold first_seen_step. case_bool_decide; [exists []; by rewrite app_nil_r|by exists [c]].
Qed.

Lemma fold_first_seen_prefix cs acc :
  exists ext, fold_left first_seen_step cs acc = acc ++ ext.
Proof.
  revert acc. induction cs as [|c cs IH]; intros acc; simpl.
  - exists []. by rewrite app_nil_r.
  - destruct (first_seen_step_prefix acc c) as [e1 ->].
    destruct (IH (acc ++ e1)) as [e2 ->]. exists (e1 ++ e2). by rewrite app_assoc.
Qed.

Lemma first_seen_step_NoDup acc c : NoDup acc -> NoDup (first_seen_step acc c).
Proof.
  intros H. unfold first_seen_step. case_bool_decide; [done|].
  apply NoDup_app. repeat split; [done| |apply NoDup_singleton].
  intros x Hx Hc. apply list_elem_of_singleton in Hc. by subst.
Qed.

Lemma fold_first_seen_NoDup cs acc :
  NoDup acc -> NoDup (fold_left first_seen_step cs acc).
Proof.
  revert acc. induction cs as [|c cs IH]; intros acc H; simpl; [done|].
  by apply IH, first_seen_step_NoDup.
Qed.

Lemma first_seen_step_elem acc c x : x ∈ first_seen_step acc c <-> x ∈ acc \/ x = c.
Proof.
  unfold first_seen_step. case_bool_decide.
  - split; [by left|]. intros [?|?]; by subst.
  - rewrite elem_of_app, list_elem_of_singleton. done.
Qed.

Lemma fold_first_seen_elem cs acc x :
  x ∈ fold_left first_seen_step cs acc <-> x ∈ acc \/ x ∈ cs.
Proof.
  revert acc. induction cs as [|c cs IH]; intros acc; simpl.
  - split; [by left|]. intros [|H]; [done|]. by apply elem_of_nil in H.
  - rewrite IH, first_seen_step_elem, elem_of_cons. tauto.
Qed.


(** [first_seen] lists every code of the input once. *)
Lemma first_seen_NoDup cs : NoDup (first_seen cs).
Proof. apply fold_first_seen_NoDup, NoDup_nil_2. Qed.

Lemma first_seen_elem cs x : x ∈ first_seen cs <-> x ∈ cs.
Proof.
  unfold first_seen. rewrite fold_first_seen_elem. split; [|by right].
  intros [H|H]; [by apply elem_of_nil in H|done].
Qed.


(** ** The table after a run *)

Lemma find_info_elem c tbl info :
  find_info c tbl = Some info -> info ∈ tbl /\ info.(code) = c.
Proof.
  induction tbl as [|x tbl IH]; simpl; [done|].
  destruct (String.eqb (code x) c) eqn:E.
  - intros [= <-]. apply String.eqb_eq in E. split; [apply elem_of_cons; by left|done].
  - intros H. destruct (IH H). split; [apply elem_of_cons; by right|done].
Qed.

Lemma find_info_None c tbl : find_info c tbl = None <-> c ∉ code <$> tbl.
Proof.
  induction tbl as [|x tbl IH]; simpl.
  - split; [intros _; apply not_elem_of_nil|done].
  - rewrite not_elem_of_cons, <- IH. destruct (String.eqb (code x) c) eqn:E.
    + apply String.eqb_eq in E. split; [done|]. intros [? _]. congruence.
    + apply String.eqb_neq in E. split; [intros; split; [congruence|done]|by intros []].
Qed.

Lemma find_info_NoDup tbl info :
  NoDup (code <$> tbl) -> info ∈ tbl -> find_info info.(code) tbl = Some info.
Proof.
  induction tbl as [|x tbl IH]; simpl; intros Hnd Hin; [by apply elem_of_nil in Hin|].
  apply NoDup_cons in Hnd as [Hx Hnd].
  destruct (String.eqb (code x) (code info)) eqn:E.
  - apply String.eqb_eq in E. apply elem_of_cons in Hin as [->|Hin]; [done|].
    exfalso. apply Hx. rewrite E. apply list_elem_of_fmap. by exists info.
  - apply String.eqb_neq in E. apply elem_of_cons in Hin as [->|Hin]; [done|]. by apply IH.
Qed.

Lemma index_of_find c tbl :
  find_info c tbl = i ← index_of c tbl; tbl !! i.
Proof.
  induction tbl as [|x tbl IH]; simpl; [done|].
  destruct (String.eqb (code x) c); [done|]. rewrite IH.
  by destruct (index_of c tbl).
Qed.

Lemma find_info_insert c tbl i x c' :
  index_of c tbl = Some i -> x.(code) = c ->
  find_info c' (<[i := x]> tbl) = if String.eqb c c' then Some x else find_info c' tbl.
Proof.
  revert i. induction tbl as [|y tbl IH]; intros i; simpl; [done|].
  destruct (String.eqb (code y) c) eqn:E.
  - intros [= <-] Hx. simpl. apply String.eqb_eq in E. rewrite Hx, E.
    by destruct (String.eqb c c').
  - destruct (index_of c tbl) as [k|]; simpl; [|done]. intros [= <-] Hx. simpl.
    destruct (String.eqb (code y) c') eqn:E'; [|by apply IH].
    apply String.eqb_eq in E'. subst c'. by rewrite (String.eqb_sym c), E.
Qed.

Lemma find_info_snoc c tbl x c' :
  index_of c tbl = None -> x.(code) = c ->
  find_info c' (tbl ++ [x]) = if String.eqb c c' then Some x else find_info c' tbl.
Proof.
  induction tbl as [|y tbl IH]; simpl.
  - intros _ ->. by destruct (String.eqb (code x) c').
  - destruct (String.eqb (code y) c) eqn:E; [done|].
    destruct (index_of c tbl); simpl; [done|]. intros _ Hx.
    destruct (String.eqb (code y) c') eqn:E'; [|by apply IH].
    apply String.eqb_eq in E'. subst c'. by rewrite (String.eqb_sym c), E.
Qed.

Section TableFacts.

Variable atof : string -> float.

(** One round on the table: the line has a state code [c]; its
    observation is folded into the accumulator of [c], which is new when
    the table had none; no other accumulator changes; the codes keep their
    order, and a new code goes to the end. *)
Lemma tbl_step_inv ns line tbl tbl' :
  tbl_step atof ns line tbl = Ok tbl' ->
  exists c info',
    line_code line = Some c
    /\ fold_record atof (default (new_info c) (find_info c tbl)) (line_saved line) = Ok info'
    /\ code <$> tbl' = first_seen_step (code <$> tbl) c
    /\ (forall c', find_info c' tbl' = if String.eqb c c' then Some info' else find_info c' tbl)
    /\ ((exists i info, tbl !! i = Some info /\ find_info c tbl = Some info
                        /\ tbl' = <[i := info']> tbl)
        \/ (find_info c tbl = None /\ length tbl < ns /\ tbl' = tbl ++ [info'])).
Proof.
  unfold tbl_step. destruct (line_code line) as [c|]; [|done].
  pose proof (index_of_find c tbl) as Hfi.
  destruct (index_of c tbl) as [i|] eqn:Hi; simpl in Hfi.
  - destruct (index_of_Some _ _ _ Hi) as (info & Hl & Hc & _). rewrite Hl. simpl.
    destruct (fold_record atof info (line_saved line)) as [info'| |] eqn:Hf; try done.
    simpl. intros [= <-]. exists c, info'. rewrite Hfi, Hl. simpl.
    split; [done|]. split; [done|]. split; [|split].
    + pose proof (fold_record_code _ _ _ _ Hf) as Hc'.
      rewrite list_fmap_insert, list_insert_id by (by rewrite list_lookup_fmap, Hl, Hc'; simpl).
      unfold first_seen_step. rewrite bool_decide_eq_true_2; [done|].
      apply list_elem_of_fmap. exists info. split; [done|].
      by apply list_elem_of_lookup_2 in Hl.
    + intros c'. apply find_info_insert; [done|].
      rewrite (fold_record_code _ _ _ _ Hf). done.
    + left. by exists i, info.
  - simpl. destruct (ns <=? length tbl)%nat eqn:Hcap; [done|]. apply Nat.leb_gt in Hcap.
    unfold strcpy_code. simpl. destruct (String.length c <=? 2)%nat; [|done]. simpl.
    destruct (fold_record atof (new_info c) (line_saved line)) as [info'| |] eqn:Hf; try done.
    simpl. intros [= <-]. exists c, info'. rewrite Hfi. simpl.
    split; [done|]. split; [done|]. split; [|split].
    + rewrite fmap_app. simpl. rewrite (fold_record_code _ _ _ _ Hf). simpl.
      unfold first_seen_step. rewrite bool_decide_eq_false_2; [done|].
      by apply index_of_None.
    + intros c'. apply find_info_snoc; [done|].
      by rewrite (fold_record_code _ _ _ _ Hf).
    + right. done.
Qed.

Lemma tbl_steps_codes ns lines tbl tbl' :
  tbl_steps atof ns lines tbl = Ok tbl' ->
  code <$> tbl' = fold_left first_seen_step (codes_of lines) (code <$> tbl).
Proof.
  revert tbl. induction lines as [|l lines IH]; intros tbl; simpl.
  - by intros [= <-].
  - destruct (tbl_step atof ns l tbl) as [t| |] eqn:E; simpl; try done.
    intros H. destruct (tbl_step_inv _ _ _ _ E) as (c & info' & Hc & _ & Hcodes & _).
    unfold codes_of. simpl. rewrite Hc. simpl. rewrite <- Hcodes. by apply IH.
Qed.

(** In a run that succeeds every line has a state code. *)
Lemma tbl_steps_all_codes ns lines tbl tbl' :
  tbl_steps atof ns lines tbl = Ok tbl' -> length (codes_of lines) = length lines.
Proof.
  revert tbl. induction lines as [|l lines IH]; intros tbl; simpl; [done|].
  destruct (tbl_step atof ns l tbl) as [t| |] eqn:E; simpl; try done.
  intros H. destruct (tbl_step_inv _ _ _ _ E) as (c & info' & Hc & _).
  unfold codes_of. simpl. rewrite Hc. simpl. f_equal. by eapply IH.
Qed.

Lemma lines_of_cons c l lines :
  lines_of c (l :: lines)
  = if decide (line_code l = Some c) then l :: lines_of c lines else lines_of c lines.
Proof. unfold lines_of. by rewrite filter_cons. Qed.

(** The accumulator of [c] after the lines [lines]: the one before them,
    or a new one, fed the lines of [c] one after the other. *)
Lemma tbl_steps_find ns lines tbl tbl' c :
  tbl_steps atof ns lines tbl = Ok tbl' ->
  match lines_of c lines with
  | [] => find_info c tbl' = find_info c tbl
  | ls => exists info', find_info c tbl' = Some info'
            /\ fold_records atof (default (new_info c) (find_info c tbl)) ls = Ok info'
  end.
Proof.
  revert tbl. induction lines as [|l lines IH]; intros tbl; simpl.
  - by intros [= <-].
  - destruct (tbl_step atof ns l tbl) as [t| |] eqn:E; simpl; try done.
    intros H. specialize (IH _ H).
    destruct (tbl_step_inv _ _ _ _ E) as (c0 & info1 & Hc & Hf & _ & Hfind & _).
    rewrite lines_of_cons, Hc. specialize (Hfind c).
    destruct (decide (Some c0 = Some c)) as [[= ->]|Hne].
    + rewrite String.eqb_refl in Hfind. rewrite Hfind in IH.
      destruct (lines_of c lines) as [|l' ls].
      * exists info1. split; [congruence|]. simpl. by rewrite Hf.
      * destruct IH as (info' & H1 & H2). exists info'. split; [done|].
        cbn [fold_records]. rewrite Hf. done.
    + replace (String.eqb c0 c) with false in Hfind
        by (symmetry; apply String.eqb_neq; congruence).
      by rewrite Hfind in IH.
Qed.

(** After a run from the empty table, the codes of the table are the
    codes of the lines in first-seen order, and every accumulator is a new
    one fed the lines of its state, of which there is at least one. *)
Lemma run_codes ns lines tbl :
  tbl_steps atof ns lines [] = Ok tbl -> code <$> tbl = first_seen (codes_of lines).
Proof. intros H. by rewrite (tbl_steps_codes _ _ _ _ H). Qed.

Lemma run_entry ns lines tbl info :
  tbl_steps atof ns lines [] = Ok tbl -> info ∈ tbl ->
  lines_of info.(code) lines <> []
  /\ fold_records atof (new_info info.(code)) (lines_of info.(code) lines) = Ok info.
Proof.
  intros H Hin.
  assert (find_info (code info) tbl = Some info) as Hf.
  { apply find_info_NoDup; [|done]. rewrite (run_codes _ _ _ H). apply first_seen_NoDup. }
  pose proof (tbl_steps_find _ _ _ _ (code info) H) as Hs.
  destruct (lines_of (code info) lines) as [|l ls]; [simpl in Hs; congruence|].
  destruct Hs as (info' & H1 & H2). split; [done|].
  assert (info' = info) as -> by congruence. exact H2.
Qed.

End TableFacts.

(** ** Record counts *)




Lemma to_uint32_small z : (0 <= z < 2 ^ 32)%Z -> to_uint32 z = z.
Proof. intros. unfold to_uint32. by apply Z.mod_small. Qed.

Lemma to_uint32_range z : (0 <= to_uint32 z < 2 ^ 32)%Z.
Proof. unfold to_uint32. apply Z.mod_pos_bound. lia. Qed.

Lemma to_uint32_succ z k : to_uint32 (to_uint32 z + k) = to_uint32 (z + k).
Proof. unfold to_uint32. by rewrite Zplus_mod_idemp_l. Qed.

Section Counts.

Variable atof : string -> float.

Lemma fold_records_code info ls info' :
  fold_records atof info ls = Ok info' -> info'.(code) = info.(code).
Proof.
  revert info. induction ls as [|l ls IH]; intros info; simpl; [by intros [= <-]|].
  destruct (fold_record atof info (line_saved l)) as [i1| |] eqn:E; simpl; try done.
  intros H. rewrite (IH _ H). by eapply fold_record_code.
Qed.

(** The count of an accumulator is the number of lines folded into it,
    modulo [2^32]. *)
Lemma fold_records_num_records info ls info' :
  fold_records atof info ls = Ok info' ->
  to_uint32 info'.(num_records) = to_uint32 (info.(num_records) + Z.of_nat (length ls)).
Proof.
  revert info. induction ls as [|l ls IH]; intros info; simpl.
  - intros [= <-]. by rewrite Z.add_0_r.
  - destruct (fold_record atof info (line_saved l)) as [i1| |] eqn:E; simpl; try done.
    intros H. rewrite (IH _ H), (fold_record_num_records _ _ _ _ E), to_uint32_succ.
    f_equal. lia.
Qed.

Lemma fold_records_range info ls info' :
  (0 <= info.(num_records) < 2 ^ 32)%Z ->
  fold_records atof info ls = Ok info' -> (0 <= info'.(num_records) < 2 ^ 32)%Z.
Proof.
  revert info. induction ls as [|l ls IH]; intros info Hr; simpl; [by intros [= <-]|].
  destruct (fold_record atof info (line_saved l)) as [i1| |] eqn:E; simpl; try done.
  apply IH. rewrite (fold_record_num_records _ _ _ _ E). apply to_uint32_range.
Qed.

Lemma fold_records_num_records_new c ls info' :
  fold_records atof (new_info c) ls = Ok info' ->
  info'.(num_records) = to_uint32 (Z.of_nat (length ls)).
Proof.
  intros H. pose proof (fold_records_num_records _ _ _ H) as Hn.
  rewrite to_uint32_small in Hn; [done|].
  eapply fold_records_range; [|done]. simpl. lia.
Qed.



End Counts.

(** ** Runs that return *)

Lemma main_returned atof fopen prog argv :
  term (main atof fopen prog argv) = Returned 0 ->
  exists tbl,
    tbl_steps atof NUM_STATES (all_lines fopen argv) [] = Ok tbl
    /\ main atof fopen prog argv
       = mk_outcome (Returned 0) (open_errors fopen argv 1)
                    (print_report (repr NUM_STATES tbl) NUM_STATES).
Proof.
  intros H. destruct argv as [|a argv]; [done|].
  pose proof (main_spec atof fopen prog (a :: argv) ltac:(done)) as Hm.
  destruct (tbl_steps atof NUM_STATES (all_lines fopen (a :: argv)) []) as [tbl| |].
  - by exists tbl.
  - destruct Hm as [err Hm]. by rewrite Hm in H.
  - destruct Hm as [err Hm]. by rewrite Hm in H.
Qed.




(** ** A file of [2^32] lines *)

Lemma fgets_line_TN rest :
  fgets line_sz (String.append line_TN rest) = Some (line_TN, rest).
Proof. reflexivity. Qed.

Lemma read_lines_copies n : read_lines (copies n line_TN) = replicate n line_TN.
Proof.
  induction n as [|n IH]; [done|].
  cbn [copies replicate]. rewrite read_lines_unfold, fgets_line_TN. by f_equal.
Qed.

Section OneState.

Variable atof : string -> float.

Lemma tbl_step_line_TN info :
  info.(code) = "TN" ->
  tbl_step atof NUM_STATES line_TN [info]
  = Ok [fold_obs atof info "1000" "geo" "50.0" "0" "60.0" "1" "1000.0" "290.0"].
Proof.
  intros Hc. unfold tbl_step. change (line_code line_TN) with (Some "TN").
  cbn [index_of]. rewrite Hc. change (String.eqb "TN" "TN") with true. cbv iota.
  simpl. by rewrite fold_record_spec.
Qed.

Lemma tbl_step_line_TN_new :
  tbl_step atof NUM_STATES line_TN []
  = Ok [fold_obs atof (new_info "TN") "1000" "geo" "50.0" "0" "60.0" "1" "1000.0" "290.0"].
Proof.
  unfold tbl_step. change (line_code line_TN) with (Some "TN").
  simpl. by rewrite fold_record_spec.
Qed.

Lemma tbl_steps_replicate_TN n info :
  info.(code) = "TN" ->
  exists info',
    tbl_steps atof NUM_STATES (replicate n line_TN) [info] = Ok [info']
    /\ info'.(code) = "TN"
    /\ to_uint32 info'.(num_records) = to_uint32 (info.(num_records) + Z.of_nat n).
Proof.
  revert info. induction n as [|n IH]; intros info Hc.
  - exists info. by rewrite Z.add_0_r.
  - cbn [replicate tbl_steps]. rewrite (tbl_step_line_TN _ Hc). cbn [bind].
    destruct (IH (fold_obs atof info "1000" "geo" "50.0" "0" "60.0" "1" "1000.0" "290.0"))
      as (info' & H1 & H2 & H3); [by rewrite fold_obs_code|].
    exists info'. split; [done|]. split; [done|].
    rewrite H3, fold_obs_num_records, to_uint32_succ. f_equal. lia.
Qed.

(** [n] lines for one state leave one accumulator, with count
    [n mod 2^32]. *)
Lemma tbl_steps_copies_TN n :
  n <> 0 ->
  exists info,
    tbl_steps atof NUM_STATES (read_lines (copies n line_TN)) [] = Ok [info]
    /\ info.(code) = "TN"
    /\ info.(num_records) = to_uint32 (Z.of_nat n).
Proof.
  intros Hn. rewrite read_lines_copies. destruct n as [|n]; [done|].
  cbn [replicate tbl_steps]. rewrite tbl_step_line_TN_new. cbn [bind].
  destruct (tbl_steps_replicate_TN n
              (fold_obs atof (new_info "TN") "1000" "geo" "50.0" "0" "60.0" "1" "1000.0" "290.0"))
    as (info' & H1 & H2 & H3); [by rewrite fold_obs_code|].
  exists info'. split; [done|]. split; [done|].
  rewrite fold_obs_num_records in H3. rewrite to_uint32_succ in H3.
  assert (to_uint32 (num_records info') = num_records info') as <-.
  { apply to_uint32_small.
    assert (fold_records atof (new_info "TN") (lines_of "TN" (replicate (S n) line_TN))
            = Ok info') as Hf.
    { assert (tbl_steps atof NUM_STATES (replicate (S n) line_TN) [] = Ok [info']) as Hr.
      { cbn [replicate tbl_steps]. by rewrite tbl_step_line_TN_new. }
      destruct (run_entry _ _ _ _ info' Hr) as [_ Hf]; [apply list_elem_of_singleton; done|].
      by rewrite H2 in Hf. }
    eapply fold_records_range; [|exact Hf]. simpl. lia. }
  rewrite H3. f_equal. simpl num_records. lia.
Qed.

Lemma big_file_run :
  exists info,
    tbl_steps atof NUM_STATES (read_lines big_file) [] = Ok [info]
    /\ info.(code) = "TN" /\ info.(num_records) = 0%Z.
Proof.
  destruct (tbl_steps_copies_TN (2 ^ 32)) as (info & H1 & H2 & H3).
  { apply Nat.pow_nonzero. discriminate. }
  exists info. split; [exact H1|]. split; [exact H2|].
  rewrite H3, Nat2Z.inj_pow. reflexivity.
Qed.

End OneState.



(** C9, amended. Every accumulator the report is printed from was fed at
    least one line: it is made in the round that folds its first line.
    Its count is the number of its lines modulo [2^32], so it is greater
    than zero when fewer than [2^32] lines were read for its state. *)
Theorem reported_counts_positive atof fopen prog argv :
  term (main atof fopen prog argv) = Returned 0 ->
  exists tbl,
    tbl_steps atof NUM_STATES (all_lines fopen argv) [] = Ok tbl
    /\ stdout (main atof fopen prog argv) = print_report (repr NUM_STATES tbl) NUM_STATES
    /\ forall info, info ∈ tbl ->
         let n := length (lines_of info.(code) (all_lines fopen argv)) in
         0 < n
         /\ info.(num_records) = to_uint32 (Z.of_nat n)
         /\ ((Z.of_nat n < 2 ^ 32)%Z -> (0 < info.(num_records))%Z).
Proof.
  intros Hret. destruct (main_returned _ _ _ _ Hret) as (tbl & Hrun & Hmain).
  exists tbl. split; [done|]. split; [by rewrite Hmain|].
  intros info Hin n. destruct (run_entry _ _ _ _ _ Hrun Hin) as [Hne Hf].
  assert (0 < n) as Hpos.
  { subst n. destruct (lines_of (code info) (all_lines fopen argv)); [done|simpl; lia]. }
  pose proof (fold_records_num_records_new _ _ _ _ Hf) as Hn. fold n in Hn.
  split; [done|]. split; [done|]. intros Hlt. rewrite Hn, to_uint32_small; lia.
Qed.

Lemma reported_counts_positive_witness :
  exists tbl,
    tbl_steps atof_decimal NUM_STATES (all_lines sample_fs ["tn.tdv"; "wa.tdv"]) [] = Ok tbl
    /\ stdout (main atof_decimal sample_fs "climate" ["tn.tdv"; "wa.tdv"])
       = print_report (repr NUM_STATES tbl) NUM_STATES
    /\ forall info, info ∈ tbl ->
         let n := length (lines_of info.(code) (all_lines sample_fs ["tn.tdv"; "wa.tdv"])) in
         0 < n
         /\ info.(num_records) = to_uint32 (Z.of_nat n)
         /\ ((Z.of_nat n < 2 ^ 32)%Z -> (0 < info.(num_records))%Z).
Proof.
  apply (reported_counts_positive atof_decimal sample_fs "climate" ["tn.tdv"; "wa.tdv"]).
  vm_compute. reflexivity.
Defined.

(** C9 as stated, without the bound, fails: after [2^32] lines for one
    state the report is printed from an accumulator whose count is zero. *)
Lemma reported_count_zero :
  exists info,
    analyze_file atof_decimal big_file (replicate NUM_STATES None) NUM_STATES
    = Ok (repr NUM_STATES [info])
    /\ info.(num_records) = 0%Z
    /\ Printf "Number of Records: %d\n" [AUInt 0]
       ∈ print_report (repr NUM_STATES [info]) NUM_STATES.
Proof.
  destruct (big_file_run atof_decimal) as (info & H1 & H2 & H3).
  exists info. split; [|split].
  - change (replicate NUM_STATES None) with (repr NUM_STATES []).
    rewrite analyze_file_repr by (cbv; lia). rewrite H1. reflexivity.
  - exact H3.
  - rewrite print_report_repr by (cbv; lia).
    cbn [map flat_map state_block app]. rewrite H3.
    do 4 apply list_elem_of_further. apply list_elem_of_here.
Qed.

(** ** The order of the report *)

Lemma block_codes_blocks tbl : block_codes (flat_map state_block tbl) = code <$> tbl.
Proof.
  induction tbl as [|info tbl IH]; [done|].
  cbn [flat_map fmap list_fmap]. rewrite <- IH. reflexivity.
Qed.

Lemma block_codes_found tbl rest :
  block_codes (map (fun info => Printf "%s " [AStr info.(code)]) tbl ++ rest)
  = block_codes rest.
Proof. induction tbl as [|info tbl IH]; [done|]. exact IH. Qed.

Lemma found_codes_blocks tbl : found_codes (flat_map state_block tbl) = [].
Proof. induction tbl as [|info tbl IH]; [done|]. exact IH. Qed.

Lemma found_codes_found tbl rest :
  found_codes (map (fun info => Printf "%s " [AStr info.(code)]) tbl ++ rest)
  = (code <$> tbl) ++ found_codes rest.
Proof.
  induction tbl as [|info tbl IH]; [done|].
  cbn [map fmap list_fmap app]. rewrite <- IH. reflexivity.
Qed.

Lemma report_codes tbl ns :
  length tbl <= ns ->
  block_codes (print_report (repr ns tbl) ns) = code <$> tbl
  /\ found_codes (print_report (repr ns tbl) ns) = code <$> tbl.
Proof.
  intros H. rewrite print_report_repr by done. split.
  - change (block_codes (map (fun info => Printf "%s " [AStr info.(code)]) tbl
                         ++ [Printf "\n" []] ++ flat_map state_block tbl) = code <$> tbl).
    rewrite block_codes_found. apply block_codes_blocks.
  - change (found_codes (map (fun info => Printf "%s " [AStr info.(code)]) tbl
                         ++ [Printf "\n" []] ++ flat_map state_block tbl) = code <$> tbl).
    rewrite found_codes_found.
    change (found_codes ([Printf "\n" []] ++ flat_map state_block tbl))
      with (found_codes (flat_map state_block tbl)).
    by rewrite found_codes_blocks, app_nil_r.
Qed.

(** C4. When the run returns, the accumulators are in the order in which
    their state codes were first seen in the lines of all files that
    opened, the files taken in the order of the arguments; the summary
    line and the per-state blocks of the report follow this order. Lines
    for WA, TN, WA give the order WA, TN. *)
Theorem report_first_seen_order atof fopen prog argv :
  term (main atof fopen prog argv) = Returned 0 ->
  let order := first_seen (codes_of (all_lines fopen argv)) in
  (exists tbl,
     tbl_steps atof NUM_STATES (all_lines fopen argv) [] = Ok tbl
     /\ stdout (main atof fopen prog argv) = print_report (repr NUM_STATES tbl) NUM_STATES
     /\ code <$> tbl = order)
  /\ block_codes (stdout (main atof fopen prog argv)) = order
  /\ found_codes (stdout (main atof fopen prog argv)) = order
  /\ first_seen ["WA"; "TN"; "WA"] = ["WA"; "TN"].
Proof.
  intros Hret order. destruct (main_returned _ _ _ _ Hret) as (tbl & Hrun & Hmain).
  pose proof (run_codes _ _ _ _ Hrun) as Hc. fold order in Hc.
  pose proof (tbl_steps_length _ _ _ _ _ Hrun ltac:(simpl; lia)) as Hlen.
  destruct (report_codes tbl NUM_STATES Hlen) as [Hb Hf].
  rewrite Hmain. cbn [stdout]. rewrite Hb, Hf.
  split; [by exists tbl|]. done.
Qed.

Lemma report_first_seen_order_witness :
  let fopen := fun _ : string => Some (cat [line_WA; line_TN; line_WA]) in
  block_codes (stdout (main atof_decimal fopen "climate" ["wa_tn_wa.tdv"])) = ["WA"; "TN"].
Proof.
  intros fopen.
  destruct (report_first_seen_order atof_decimal fopen "climate" ["wa_tn_wa.tdv"])
    as (_ & H & _); [vm_compute; reflexivity|].
  rewrite H. vm_compute. reflexivity.
Defined.

(** ** Sums and averages *)

Section Sums.

Variable atof : string -> float.

Lemma fold_record_line info l c info' :
  line_code l = Some c ->
  fold_record atof info (line_saved l) = Ok info' ->
  info' = fold_obs atof info (field 1 l) (field 2 l) (field 3 l) (field 4 l)
                   (field 5 l) (field 6 l) (field 7 l) (field 8 l)
  /\ 9 <= length (tokens (c_str l)).
Proof.
  intros Hc. rewrite fold_record_spec. unfold field. rewrite tokens_line, Hc.
  destruct (tokens (line_saved l)) as [|ts [|g [|h [|sn [|cl [|lt [|pr [|tp rest]]]]]]]];
    try done.
  intros [= <-]. split; [done|]. simpl. lia.
Qed.

Lemma fold_obs_avgHumidity info ts g h sn cl lt pr tp :
  (fold_obs atof info ts g h sn cl lt pr tp).(avgHumidity)
  = (info.(avgHumidity) + atof h)%float.
Proof.
  unfold fold_obs. cbv zeta.
  repeat match goal with |- context [if ?b then _ else _] => destruct b end; done.
Qed.

Lemma fold_obs_temperature info ts g h sn cl lt pr tp :
  (fold_obs atof info ts g h sn cl lt pr tp).(temperature)
  = (info.(temperature) + atof tp)%float.
Proof.
  unfold fold_obs. cbv zeta.
  repeat match goal with |- context [if ?b then _ else _] => destruct b end; done.
Qed.

Lemma lines_of_code c lines l : l ∈ lines_of c lines -> line_code l = Some c.
Proof. unfold lines_of. intros H. by apply list_elem_of_filter in H as [H _]. Qed.

(** The fields [avgHumidity] and [temperature] are running sums: each
    line adds its humidity (token 3) and its temperature (token 8). *)
Lemma fold_records_sums info ls info' :
  (forall l, l ∈ ls -> is_Some (line_code l)) ->
  fold_records atof info ls = Ok info' ->
  info'.(avgHumidity)
  = fold_left PrimFloat.add (map (fun l => atof (field 3 l)) ls) info.(avgHumidity)
  /\ info'.(temperature)
     = fold_left PrimFloat.add (map (fun l => atof (field 8 l)) ls) info.(temperature).
Proof.
  revert info. induction ls as [|l ls IH]; intros info Hall; simpl.
  - by intros [= <-].
  - destruct (fold_record atof info (line_saved l)) as [i1| |] eqn:E; simpl; try done.
    intros H. destruct (Hall l) as [c Hc]; [apply elem_of_cons; by left|].
    destruct (fold_record_line _ _ _ _ Hc E) as [-> _].
    destruct (IH _ ltac:(intros; apply Hall, elem_of_cons; by right) H) as [H1 H2].
    by rewrite H1, H2, fold_obs_avgHumidity, fold_obs_temperature.
Qed.

End Sums.

(** C5. When the run returns, the report has one block per accumulator.
    The accumulator holds the running sums of the humidities and of the
    temperatures of the lines of its state, and their number; the block
    prints, with format [%.1f], the humidity sum divided by the count, and
    the temperature sum divided by the count, times 1.8, minus 459.67. The
    quotients are computed in [print_report] only. *)
Theorem averages_from_sums atof fopen prog argv :
  term (main atof fopen prog argv) = Returned 0 ->
  exists tbl,
    tbl_steps atof NUM_STATES (all_lines fopen argv) [] = Ok tbl
    /\ stdout (main atof fopen prog argv)
       = [Printf "States found: " []]
         ++ map (fun info => Printf "%s " [AStr info.(code)]) tbl
         ++ [Printf "\n" []] ++ flat_map state_block tbl
    /\ forall info, info ∈ tbl ->
         let ls := lines_of info.(code) (all_lines fopen argv) in
         let humiditySum := float_sum (map (fun l => atof (field 3 l)) ls) in
         let temperatureSum := float_sum (map (fun l => atof (field 8 l)) ls) in
         let recordCount := double_of_uint info.(num_records) in
         info.(avgHumidity) = humiditySum
         /\ info.(temperature) = temperatureSum
         /\ info.(num_records) = to_uint32 (Z.of_nat (length ls))
         /\ Printf "Average Humidity: %.1f%%\n" [ADouble (humiditySum / recordCount)%float]
            ∈ state_block info
         /\ Printf "Average Temperature: %.1fF\n"
                   [ADouble (temperatureSum / recordCount * 1.8 - 459.67)%float]
            ∈ state_block info.
Proof.
  intros Hret. destruct (main_returned _ _ _ _ Hret) as (tbl & Hrun & Hmain).
  pose proof (tbl_steps_length _ _ _ _ _ Hrun ltac:(simpl; lia)) as Hlen.
  exists tbl. split; [done|]. split; [by rewrite Hmain, print_report_repr|].
  intros info Hin ls humiditySum temperatureSum recordCount.
  destruct (run_entry _ _ _ _ _ Hrun Hin) as [_ Hf].
  assert (forall l, l ∈ lines_of (code info) (all_lines fopen argv) -> is_Some (line_code l))
    as Hcodes.
  { intros l Hl. rewrite (lines_of_code _ _ _ Hl). eauto. }
  destruct (fold_records_sums atof _ _ _ Hcodes Hf) as [Hh Ht].
  split; [exact Hh|]. split; [exact Ht|].
  split; [by apply (fold_records_num_records_new _ _ _ _ Hf)|].
  subst humiditySum temperatureSum recordCount ls. unfold float_sum.
  change ((new_info (code info)).(avgHumidity)) with 0%float in Hh.
  change ((new_info (code info)).(temperature)) with 0%float in Ht.
  rewrite <- Hh, <- Ht. unfold state_block. split.
  - do 2 apply list_elem_of_further. apply list_elem_of_here.
  - do 3 apply list_elem_of_further. apply list_elem_of_here.
Qed.

Lemma averages_from_sums_witness :
  term (main atof_decimal sample_fs "climate" ["tn.tdv"; "wa.tdv"]) = Returned 0
  /\ exists tbl,
       tbl_steps atof_decimal NUM_STATES (all_lines sample_fs ["tn.tdv"; "wa.tdv"]) []
       = Ok tbl
       /\ forall info, info ∈ tbl ->
            let ls := lines_of info.(code) (all_lines sample_fs ["tn.tdv"; "wa.tdv"]) in
            Printf "Average Humidity: %.1f%%\n"
                   [ADouble (float_sum (map (fun l => atof_decimal (field 3 l)) ls)
                             / double_of_uint info.(num_records))%float]
            ∈ state_block info.
Proof.
  assert (term (main atof_decimal sample_fs "climate" ["tn.tdv"; "wa.tdv"]) = Returned 0)
    as Hret by (vm_compute; reflexivity).
  split; [exact Hret|].
  destruct (averages_from_sums atof_decimal sample_fs "climate" ["tn.tdv"; "wa.tdv"] Hret)
    as (tbl & Hrun & _ & Hall).
  exists tbl. split; [exact Hrun|].
  intros info Hin. destruct (Hall info Hin) as (_ & _ & _ & Hh & _). exact Hh.
Defined.

(** ** The capacity of the array *)

Section Capacity.

Variable atof : string -> float.

(** The loop body calls [exit] exactly when the line has a state code
    that is not in the table and the table is full. *)
Lemma tbl_step_exit ns line tbl status msg :
  tbl_step atof ns line tbl = Exit status msg <->
  exists c, line_code line = Some c /\ (c ∉ code <$> tbl) /\ ns <= length tbl
            /\ status = EXIT_FAILURE /\ msg = too_many_states (length tbl).
Proof.
  unfold tbl_step. split.
  - destruct (line_code line) as [c|]; [|done].
    destruct (index_of c tbl) as [i|] eqn:Hi.
    + destruct (tbl !! i) as [info|]; simpl; [|done].
      destruct (fold_record atof info (line_saved line)) as [x|st m|] eqn:E; simpl; try done.
      by destruct (fold_record_no_exit atof info (line_saved line) st m).
    + destruct (ns <=? length tbl)%nat eqn:Hcap.
      * intros [= <- <-]. exists c. apply Nat.leb_le in Hcap. apply index_of_None in Hi. done.
      * unfold strcpy_code. simpl. destruct (String.length c <=? 2)%nat; simpl; [|done].
        destruct (fold_record atof (new_info c) (line_saved line)) as [x|st m|] eqn:E;
          simpl; try done.
        by destruct (fold_record_no_exit atof (new_info c) (line_saved line) st m).
  - intros (c & -> & Hc & Hn & -> & ->). apply index_of_None in Hc. rewrite Hc.
    by replace (ns <=? length tbl)%nat with true by (symmetry; by apply Nat.leb_le).
Qed.




End Capacity.



(** ** Files that do not open *)

Section Unopenable.

Variable atof : string -> float.
Variable fopen : string -> option string.

Lemma all_lines_opened argv :
  all_lines fopen argv = all_lines fopen (filter (fun p => is_Some (fopen p)) argv).
Proof.
  induction argv as [|path argv IH]; [done|].
  rewrite filter_cons, all_lines_cons. destruct (fopen path) as [file|] eqn:E.
  - rewrite decide_True by eauto. by rewrite all_lines_cons, E, IH.
  - rewrite decide_False by (by intros [? ?]). by rewrite app_nil_l.
Qed.





End Unopenable.

(** Every line folded has a state code, and the table has an entry for it. *)
Section LineCodes.

Variable atof : string -> float.

Lemma tbl_steps_line_codes ns lines tbl tbl' l :
  tbl_steps atof ns lines tbl = Ok tbl' -> l ∈ lines ->
  exists c, line_code l = Some c /\ c ∈ code <$> tbl'.
Proof.
  intros Hrun Hin.
  assert (is_Some (line_code l)) as [c Hc].
  { revert tbl Hrun. induction lines as [|l0 lines IH]; intros tbl; simpl;
      [by apply elem_of_nil in Hin|].
    destruct (tbl_step atof ns l0 tbl) as [t| |] eqn:E; simpl; try done.
    apply elem_of_cons in Hin as [->|Hin]; [|by apply IH].
    destruct (tbl_step_inv _ _ _ _ _ E) as (c & _ & -> & _). eauto. }
  exists c. split; [done|]. rewrite (tbl_steps_codes _ _ _ _ _ Hrun).
  apply fold_first_seen_elem. right. apply list_elem_of_omap. by exists l.
Qed.

End LineCodes.




(** ** Lines with too few fields *)

Lemma c_str_plain f s : plain f = true -> c_str (String.append f s) = String.append f (c_str s).
Proof.
  induction f as [|c f IH]; [done|]. cbn [plain]. rewrite !andb_true_iff, !negb_true_iff.
  intros [[_ Hc] Hf]. rewrite !append_cons. cbn [c_str]. rewrite Hc. by rewrite IH.
Qed.

Lemma join_tabs_cons f g rest :
  join_tabs (f :: g :: rest) = String.append f (String TAB (join_tabs (g :: rest))).
Proof. reflexivity. Qed.

Lemma c_str_join fields s :
  Forall (fun f => plain f = true) fields ->
  c_str (String.append (join_tabs fields) s) = String.append (join_tabs fields) (c_str s).
Proof.
  induction fields as [|f [|g rest] IH]; intros Hall.
  - done.
  - apply Forall_cons in Hall as [Hf _]. by apply c_str_plain.
  - apply Forall_cons in Hall as [Hf Hall]. rewrite join_tabs_cons, !append_assoc.
    rewrite c_str_plain by done. rewrite !append_cons. cbn [c_str].
    change (Ascii.eqb TAB NUL) with false. cbv iota. by rewrite IH.
Qed.

(** A text line of plain fields is the C string in the buffer. *)
Lemma c_str_tdv fields :
  Forall (fun f => plain f = true) fields -> c_str (tdv fields) = tdv fields.
Proof. intros H. unfold tdv. by rewrite c_str_join. Qed.

Lemma tokens_delim d s : is_delim delims d = true -> tokens (String d s) = tokens s.
Proof.
  intros Hd. rewrite (tokens_unfold (String d s)), (tokens_unfold s).
  unfold strtok. cbn [skip_delims]. by rewrite Hd.
Qed.

Lemma scan_token_plain f d s :
  plain f = true -> is_delim delims d = true ->
  scan_token delims (String.append f (String d s)) = (f, s).
Proof.
  intros Hf Hd. induction f as [|c f IH].
  - rewrite append_nil_l. cbn [scan_token]. by rewrite Hd.
  - cbn [plain] in Hf. rewrite !andb_true_iff, !negb_true_iff in Hf.
    destruct Hf as [[Hc _] Hf]. rewrite append_cons. cbn [scan_token].
    rewrite Hc, (IH Hf). done.
Qed.

Lemma tokens_plain f d s :
  plain f = true -> is_delim delims d = true ->
  tokens (String.append f (String d s))
  = match f with EmptyString => tokens s | _ => f :: tokens s end.
Proof.
  intros Hf Hd. destruct f as [|c f]; [by apply tokens_delim|].
  rewrite tokens_unfold. unfold strtok.
  pose proof Hf as Hf'. cbn [plain] in Hf'. rewrite !andb_true_iff, !negb_true_iff in Hf'.
  destruct Hf' as [[Hc _] _].
  rewrite append_cons. cbn [skip_delims]. rewrite Hc.
  rewrite <- append_cons, (scan_token_plain _ _ _ Hf Hd). done.
Qed.

(** A line has at most as many tokens as it has tab-separated fields. *)
Lemma tokens_tdv fields :
  Forall (fun f => plain f = true) fields ->
  length (tokens (tdv fields)) <= length fields.
Proof.
  unfold tdv. induction fields as [|f [|g rest] IH]; intros Hall.
  - done.
  - apply Forall_cons in Hall as [Hf _]. cbn [join_tabs].
    rewrite (tokens_plain f LF EmptyString Hf eq_refl). destruct f; simpl; lia.
  - apply Forall_cons in Hall as [Hf Hall]. rewrite join_tabs_cons, append_assoc, append_cons.
    rewrite (tokens_plain f TAB _ Hf eq_refl). specialize (IH Hall).
    destruct f; simpl in *; lia.
Qed.

Section ShortLines.

Variable atof : string -> float.

Lemma compareOrder_loop_NULL rounds (states : states_t) cs order z :
  compareOrder_loop rounds states None cs order = Ok z -> z = (-1)%Z.
Proof.
  destruct rounds as [|r]; simpl; [by intros [= <-]|].
  destruct (order <? cs)%nat; [|by intros [= <-]].
  destruct (entry states order); [done|by intros [= <-]].
Qed.

(** The loop body completes only on a line with at least nine tokens,
    on any array. *)
Lemma analyze_line_ok_tokens line (states : states_t) cs ns r :
  analyze_line atof line states cs ns = Ok r -> 9 <= length (tokens (c_str line)).
Proof.
  unfold analyze_line. rewrite (tokens_unfold (c_str line)).
  destruct (strtok (c_str line) delims) as [[c|] saved].
  - destruct (compareOrder states (Some c) cs) as [z| |]; simpl; try done.
    assert (forall (st : states_t) i k,
              (do info <- deref (entry st i);
               do info0 <- fold_record atof info saved;
               Ok (<[i := Some info0]> st, k)) = Ok r ->
              9 <= length (c :: tokens saved)) as Hrec.
    { intros st i k. destruct (entry st i) as [info|]; simpl; [|done].
      rewrite fold_record_spec.
      destruct (tokens saved) as [|ts [|g [|h [|sn [|cl [|lt [|pr [|tp rest]]]]]]]];
        try done.
      intros _. simpl. lia. }
    destruct (z =? -1)%Z.
    + destruct (ns <=? cs)%nat; simpl; [done|].
      destruct (strcpy_code (Some c)); simpl; try done. apply Hrec.
    + simpl. apply Hrec.
  - destruct (compareOrder states None cs) as [z| |] eqn:E; simpl; try done.
    apply compareOrder_loop_NULL in E as ->. simpl.
    by destruct (ns <=? cs)%nat.
Qed.

Lemma tbl_steps_ok_tokens ns lines tbl tbl' l :
  tbl_steps atof ns lines tbl = Ok tbl' -> l ∈ lines -> 9 <= length (tokens (c_str l)).
Proof.
  revert tbl. induction lines as [|l0 lines IH]; intros tbl; simpl.
  - intros _ H. by apply elem_of_nil in H.
  - destruct (tbl_step atof ns l0 tbl) as [t| |] eqn:E; simpl; try done.
    intros H Hin. apply elem_of_cons in Hin as [->|Hin]; [|by eapply IH].
    destruct (tbl_step_inv _ _ _ _ _ E) as (c & info' & Hc & Hf & _).
    by destruct (fold_record_line _ _ _ _ _ Hc Hf).
Qed.

End ShortLines.

(** C7, amended. The program has no check of the number of fields. On a
    line with fewer than 9 tab-separated fields (so also one with 5, or
    with fewer than 8) the loop body does not complete: a token is missing
    and its [NULL] is used, or [exit] is called for a 51st state. A run
    that reads such a line does not return from [main] and prints no
    report, whatever the other lines are. *)
Theorem short_line_ends_run atof fopen prog argv fields :
  Forall (fun f => plain f = true) fields ->
  length fields < 9 ->
  (forall (states : states_t) currentStates r,
     analyze_line atof (tdv fields) states currentStates NUM_STATES <> Ok r)
  /\ (tdv fields ∈ all_lines fopen argv ->
      (forall status, term (main atof fopen prog argv) <> Returned status)
      /\ stdout (main atof fopen prog argv) = []).
Proof.
  intros Hplain Hlen.
  assert (length (tokens (c_str (tdv fields))) < 9) as Htok.
  { rewrite c_str_tdv by done. pose proof (tokens_tdv fields Hplain). lia. }
  split.
  - intros states cs r H. apply analyze_line_ok_tokens in H. lia.
  - intros Hin. destruct argv as [|a argv]; [by apply elem_of_nil in Hin|].
    pose proof (main_spec atof fopen prog (a :: argv) ltac:(done)) as Hm.
    destruct (tbl_steps atof NUM_STATES (all_lines fopen (a :: argv)) [])
      as [tbl|st m|] eqn:E.
    + pose proof (tbl_steps_ok_tokens _ _ _ _ _ _ E Hin). lia.
    + destruct Hm as [err ->]. by split.
    + destruct Hm as [err ->]. by split.
Qed.

Lemma short_line_ends_run_witness :
  let fopen := fun _ : string => Some (cat [line_WA; line_5_fields; line_TN]) in
  analyze_line atof_decimal line_5_fields (replicate NUM_STATES None) 0 NUM_STATES = Undef
  /\ term (main atof_decimal fopen "climate" ["data.tdv"]) <> Returned 0
  /\ stdout (main atof_decimal fopen "climate" ["data.tdv"]) = [].
Proof.
  intros fopen.
  destruct (short_line_ends_run atof_decimal fopen "climate" ["data.tdv"]
              ["TN"; "1000"; "geo"; "50.0"; "0"]) as [H1 H2].
  - repeat constructor.
  - simpl. lia.
  - split; [vm_compute; reflexivity|].
    destruct H2 as [Ht Ho].
    + apply (bool_decide_unpack _). vm_compute. exact I.
    + split; [apply Ht | exact Ho].
Defined.

(** C7 as stated fails: a line with 5 fields is not skipped. The run that
    reads it after a line for WA and before a line for TN prints nothing,
    while the same file without it is reported. *)
Lemma short_line_not_skipped :
  main atof_decimal (fun _ => Some (cat [line_WA; line_5_fields; line_TN])) "climate"
       ["data.tdv"]
  = mk_outcome Undefined [] []
  /\ term (main atof_decimal (fun _ => Some (cat [line_WA; line_TN])) "climate" ["data.tdv"])
     = Returned 0
  /\ block_codes
       (stdout (main atof_decimal (fun _ => Some (cat [line_WA; line_TN])) "climate"
                     ["data.tdv"]))
     = ["WA"; "TN"].
Proof. repeat split; vm_compute; reflexivity. Qed.

(** ** Lines longer than the buffer *)

Lemma fgets_chars_full b s room :
  no_LF b = true -> String.length b = room -> fgets_chars room (String.append b s) = (b, s).
Proof.
  revert room. induction b as [|c b IH]; intros room Hb Hlen.
  - simpl in Hlen. by subst room.
  - simpl in Hlen. subst room. cbn [no_LF] in Hb. apply andb_true_iff in Hb as [Hc Hb].
    apply negb_true_iff in Hc. rewrite append_cons. cbn [fgets_chars].
    rewrite Hc, (IH _ Hb eq_refl). done.
Qed.

Lemma fgets_chars_line b s room :
  no_LF b = true -> String.length b < room ->
  fgets_chars room (String.append b (String LF s)) = (String.append b (String LF EmptyString), s).
Proof.
  revert room. induction b as [|c b IH]; intros room Hb Hlen.
  - destruct room; [lia|]. rewrite !append_nil_l. cbn [fgets_chars].
    by change (Ascii.eqb LF LF) with true.
  - simpl in Hlen. destruct room as [|room]; [lia|].
    cbn [no_LF] in Hb. apply andb_true_iff in Hb as [Hc Hb].
    apply negb_true_iff in Hc. rewrite !append_cons. cbn [fgets_chars].
    rewrite Hc, (IH room Hb ltac:(lia)). done.
Qed.

Lemma read_lines_chunk b s :
  no_LF b = true -> String.length b = 99 ->
  read_lines (String.append b s) = b :: read_lines s.
Proof.
  intros Hb Hlen. rewrite read_lines_unfold.
  destruct b as [|c b]; [done|]. rewrite append_cons. unfold fgets.
  change (line_sz - 1) with 99. rewrite <- append_cons.
  by rewrite (fgets_chars_full _ _ _ Hb Hlen).
Qed.

Lemma read_lines_short b s :
  no_LF b = true -> String.length b < 99 ->
  read_lines (String.append b (String LF s))
  = String.append b (String LF EmptyString) :: read_lines s.
Proof.
  intros Hb Hlen. rewrite read_lines_unfold.
  assert (fgets line_sz (String.append b (String LF s))
          = Some (fgets_chars 99 (String.append b (String LF s)))) as ->.
  { by destruct b. }
  by rewrite (fgets_chars_line _ _ _ Hb Hlen).
Qed.

Lemma string_split (s : string) n :
  n <= String.length s ->
  exists s1 s2, s = String.append s1 s2 /\ String.length s1 = n.
Proof.
  revert s. induction n as [|n IH]; intros s Hn.
  - by exists EmptyString, s.
  - destruct s as [|c s]; [simpl in Hn; lia|].
    destruct (IH s ltac:(simpl in Hn; lia)) as (s1 & s2 & -> & Hl).
    exists (String c s1), s2. split; [done|]. simpl. by rewrite Hl.
Qed.

Lemma no_LF_append s1 s2 : no_LF (String.append s1 s2) = no_LF s1 && no_LF s2.
Proof.
  induction s1 as [|c s1 IH]; [done|]. rewrite append_cons. cbn [no_LF].
  by rewrite IH, andb_assoc.
Qed.

(** A physical line is read in pieces of at most 99 characters: one more
    piece than the times 99 goes into the length of the line without its
    newline. *)
Lemma read_lines_long n body rest :
  String.length body <= n -> no_LF body = true ->
  exists chunks,
    read_lines (String.append body (String LF rest)) = chunks ++ read_lines rest
    /\ cat chunks = String.append body (String LF EmptyString)
    /\ length chunks = S (String.length body / 99)
    /\ Forall (fun c => String.length c <= 99) chunks.
Proof.
  revert body. induction n as [|n IH]; intros body Hn Hb.
  - destruct body; [|simpl in Hn; lia].
    exists [String LF EmptyString]. rewrite (read_lines_short EmptyString) by (done || simpl; lia).
    repeat split. apply Forall_singleton. simpl. lia.
  - destruct (decide (String.length body < 99)) as [Hlt|Hge].
    + exists [String.append body (String LF EmptyString)].
      rewrite read_lines_short by done. split; [done|]. split; [by rewrite <- append_nil_r|].
      split; [by rewrite Nat.div_small|].
      apply Forall_singleton. rewrite length_append. simpl. lia.
    + destruct (string_split body 99 ltac:(lia)) as (b1 & b2 & -> & Hl1).
      rewrite no_LF_append in Hb. apply andb_true_iff in Hb as [Hb1 Hb2].
      rewrite length_append in Hn, Hge.
      destruct (IH b2 ltac:(lia) Hb2) as (chunks & Hr & Hc & Hlen & Hall).
      exists (b1 :: chunks). rewrite append_assoc, (read_lines_chunk _ _ Hb1 Hl1), Hr.
      split; [done|]. split; [cbn [cat]; by rewrite Hc, append_assoc|]. split.
      * cbn [length]. rewrite Hlen, length_append, Hl1.
        replace (99 + String.length b2) with (String.length b2 + 1 * 99) by lia.
        rewrite Nat.div_add by done. lia.
      * apply Forall_cons. split; [lia|done].
Qed.

(** *** Tokens of the pieces of a line *)

Lemma skip_delims_head delim s c r :
  skip_delims delim s = String c r -> is_delim delim c = false.
Proof.
  induction s as [|a s IH]; cbn [skip_delims]; [done|].
  destruct (is_delim delim a) eqn:Ea; [done|]. by intros [= <- _].
Qed.

Lemma ntok_skip_delims s : ntok true (skip_delims delims s) = ntok true s.
Proof.
  induction s as [|c s IH]; [done|]. cbn [skip_delims ntok].
  destruct (is_delim delims c) eqn:E; [done|]. cbn [ntok]. by rewrite E.
Qed.

Lemma ntok_scan_token s t r : scan_token delims s = (t, r) -> ntok false s = ntok true r.
Proof.
  revert t r. induction s as [|c s IH]; intros t r; cbn [scan_token ntok].
  - by intros [= <- <-].
  - destruct (is_delim delims c); [by intros [= <- <-]|].
    destruct (scan_token delims s) as [t' r'] eqn:E. intros [= <- <-].
    by rewrite (IH _ _ eq_refl).
Qed.

(** [strtok] finds as many tokens as there are runs of characters other
    than the delimiters. *)
Lemma tokens_length s : length (tokens s) = ntok true s.
Proof.
  remember (String.length s) as n eqn:Hn. revert s Hn.
  induction n as [n IH] using lt_wf_ind. intros s ->.
  rewrite tokens_unfold. destruct (strtok s delims) as [[t|] s'] eqn:E.
  - pose proof (strtok_progress _ _ _ _ E) as Hlt. cbn [length].
    rewrite (IH _ Hlt s' eq_refl), <- (ntok_skip_delims s).
    unfold strtok in E. destruct (skip_delims delims s) as [|c r] eqn:Es; [done|].
    pose proof (skip_delims_head _ _ _ _ Es) as Hc.
    destruct (scan_token delims (String c r)) as [t' r'] eqn:Et. injection E as _ <-.
    apply ntok_scan_token in Et. cbn [ntok] in Et |- *. rewrite Hc in Et |- *. lia.
  - rewrite <- (ntok_skip_delims s). unfold strtok in E.
    destruct (skip_delims delims s) as [|c r]; [done|].
    by destruct (scan_token delims (String c r)).
Qed.

Lemma ntok_fresh s : ntok false s <= ntok true s <= ntok false s + 1.
Proof. destruct s as [|c s]; cbn [ntok]; [lia|]. destruct (is_delim delims c); lia. Qed.

(** Cutting a string in two makes at most one token more. *)
Lemma ntok_app b s1 s2 :
  ntok b s1 + ntok true s2 <= ntok b (String.append s1 s2) + 1.
Proof.
  revert b. induction s1 as [|c s1 IH]; intros b.
  - rewrite append_nil_l. cbn [ntok]. pose proof (ntok_fresh s2). destruct b; lia.
  - rewrite append_cons. cbn [ntok]. destruct (is_delim delims c).
    + apply IH.
    + specialize (IH false). lia.
Qed.

Lemma ntok_c_str b s : ntok b (c_str s) <= ntok b s.
Proof.
  revert b. induction s as [|c s IH]; intros b; cbn [c_str ntok]; [done|].
  destruct (Ascii.eqb c NUL); cbn [ntok]; [lia|].
  destruct (is_delim delims c); [apply IH|]. specialize (IH false). lia.
Qed.

Lemma ntok_app_LF b s : ntok b (String.append s (String LF EmptyString)) = ntok b s.
Proof.
  revert b. induction s as [|c s IH]; intros b; [done|]. rewrite append_cons. cbn [ntok].
  by rewrite !IH.
Qed.

(** When each of [n] pieces of a string has [k] tokens or more, the string
    has more than [(k - 1) * n] tokens. *)
Lemma ntok_cat k chunks :
  chunks <> [] ->
  Forall (fun chunk => k <= ntok true chunk) chunks ->
  k * length chunks + 1 <= ntok true (cat chunks) + length chunks.
Proof.
  induction chunks as [|c chunks IH]; [done|]. intros _ Hall.
  apply Forall_cons in Hall as [Hc Hall]. cbn [cat length].
  destruct chunks as [|c' chunks].
  - cbn [cat length]. rewrite append_nil_r. lia.
  - specialize (IH ltac:(done) Hall).
    pose proof (ntok_app true c (cat (c' :: chunks))). nia.
Qed.

Section LongLines.

Variable atof : string -> float.

(** The loop body completes on a line with nine tokens or more whose
    first token fits in [code], when the table is not full. *)
Lemma tbl_step_ok ns l tbl :
  9 <= length (tokens (c_str l)) ->
  String.length (field 0 l) <= 2 ->
  length tbl < ns ->
  exists tbl', tbl_step atof ns l tbl = Ok tbl' /\ length tbl' <= S (length tbl).
Proof.
  unfold field. rewrite tokens_line. unfold tbl_step.
  destruct (line_code l) as [c|]; [|simpl; lia]. cbn [length].
  intros Htok Hc Hroom. change (String.length c <= 2) in Hc.
  assert (forall info, exists info', fold_record atof info (line_saved l) = Ok info') as Hfold.
  { intros info. rewrite fold_record_spec.
    destruct (tokens (line_saved l)) as [|ts [|g [|h [|sn [|cl [|lt [|pr [|tp rest]]]]]]]];
      simpl in Htok; try lia. eauto. }
  destruct (index_of c tbl) as [i|] eqn:Hi.
  - destruct (index_of_Some _ _ _ Hi) as (info & -> & _). cbn [deref bind].
    destruct (Hfold info) as [info' ->]. cbn [bind]. eexists. split; [done|].
    rewrite length_insert. lia.
  - apply Nat.leb_gt in Hroom as ->. unfold strcpy_code. cbn [deref bind].
    apply Nat.leb_le in Hc as ->. cbn [bind].
    destruct (Hfold (new_info c)) as [info' ->]. cbn [bind]. eexists. split; [done|].
    rewrite length_app. simpl. lia.
Qed.

Lemma tbl_steps_ok ns lines tbl :
  Forall (fun l => 9 <= length (tokens (c_str l)) /\ String.length (field 0 l) <= 2) lines ->
  length tbl + length lines <= ns ->
  exists tbl', tbl_steps atof ns lines tbl = Ok tbl'.
Proof.
  revert tbl. induction lines as [|l lines IH]; intros tbl Hall Hroom; [by exists tbl|].
  apply Forall_cons in Hall as [[Htok Hc] Hall]. cbn [length] in Hroom. cbn [tbl_steps].
  destruct (tbl_step_ok ns l tbl Htok Hc ltac:(lia)) as (t & -> & Hlen). cbn [bind].
  apply IH; [done|lia].
Qed.

(** What is in the table for the state of a line that was folded. *)
Lemma tbl_steps_line_entry ns lines tbl tbl' l :
  tbl_steps atof ns lines tbl = Ok tbl' -> l ∈ lines ->
  exists c info',
    line_code l = Some c /\ find_info c tbl' = Some info'
    /\ let start := default (new_info c) (find_info c tbl) in
       to_uint32 info'.(num_records)
       = to_uint32 (start.(num_records) + Z.of_nat (length (lines_of c lines)))
       /\ info'.(avgHumidity)
          = fold_left PrimFloat.add (map (fun l => atof (field 3 l)) (lines_of c lines))
                      start.(avgHumidity)
       /\ info'.(temperature)
          = fold_left PrimFloat.add (map (fun l => atof (field 8 l)) (lines_of c lines))
                      start.(temperature).
Proof.
  intros Hrun Hin.
  destruct (tbl_steps_line_codes _ _ _ _ _ _ Hrun Hin) as (c & Hc & _).
  pose proof (tbl_steps_find _ _ _ _ _ c Hrun) as Hfind.
  assert (l ∈ lines_of c lines) as Hl by (by apply list_elem_of_filter).
  destruct (lines_of c lines) as [|l0 ls] eqn:E; [by apply elem_of_nil in Hl|].
  destruct Hfind as (info' & Hf & Hfold). rewrite <- E in Hfold.
  exists c, info'. split; [done|]. split; [done|].
  cbv zeta. split; [by apply (fold_records_num_records _ _ _ _ Hfold)|].
  apply (fold_records_sums _ _ _ _); [|done].
  intros l' Hl'. apply lines_of_code in Hl'. by rewrite Hl'.
Qed.

End LongLines.

(** C10, amended. A physical line of 100 characters or more, newline
    included, is read by [fgets] in pieces of at most 99 characters, at
    least two of them, and [analyze_file] runs its loop body on every
    piece as on a line; nothing rejects the line for its length. The
    pieces are not always folded. When every piece has nine tokens or
    more and a first token of at most two characters, and the table has
    room for as many states as there are pieces, every piece is folded as
    one record of the state named by its first token: it is counted in
    that accumulator, and its fourth and ninth tokens are added as
    humidity and temperature. When some piece has fewer than nine tokens,
    [analyze_file] does not complete; this is so for every line that
    has no more than eight tokens for each of its pieces, hence for every
    long line with fewer than 17 tokens, such as a line that holds one
    observation of nine fields. *)
Theorem long_line_chunks atof body rest tbl :
  no_LF body = true ->
  99 <= String.length body ->
  length tbl <= NUM_STATES ->
  let line := String.append body (String LF EmptyString) in
  let run := analyze_file atof (String.append line rest) (repr NUM_STATES tbl) NUM_STATES in
  exists chunks,
    read_lines (String.append line rest) = chunks ++ read_lines rest
    /\ cat chunks = line
    /\ length chunks = S (String.length body / 99) /\ 2 <= length chunks
    /\ Forall (fun c => String.length c <= 99) chunks
    /\ run = (do t <- tbl_steps atof NUM_STATES chunks tbl;
              do t' <- tbl_steps atof NUM_STATES (read_lines rest) t;
              Ok (repr NUM_STATES t'))
    /\ (Forall (fun chunk => 9 <= length (tokens (c_str chunk))
                             /\ String.length (field 0 chunk) <= 2) chunks ->
        length tbl + length chunks <= NUM_STATES ->
        exists t,
          tbl_steps atof NUM_STATES chunks tbl = Ok t
          /\ run = (do t' <- tbl_steps atof NUM_STATES (read_lines rest) t;
                    Ok (repr NUM_STATES t'))
          /\ code <$> t = fold_left first_seen_step (codes_of chunks) (code <$> tbl)
          /\ forall chunk, chunk ∈ chunks ->
               exists c info',
                 line_code chunk = Some c /\ find_info c t = Some info'
                 /\ let start := default (new_info c) (find_info c tbl) in
                    to_uint32 info'.(num_records)
                    = to_uint32 (start.(num_records)
                                 + Z.of_nat (length (lines_of c chunks)))
                    /\ info'.(avgHumidity)
                       = fold_left PrimFloat.add
                                   (map (fun l => atof (field 3 l)) (lines_of c chunks))
                                   start.(avgHumidity)
                    /\ info'.(temperature)
                       = fold_left PrimFloat.add
                                   (map (fun l => atof (field 8 l)) (lines_of c chunks))
                                   start.(temperature))
    /\ ((exists chunk, chunk ∈ chunks /\ length (tokens (c_str chunk)) < 9) ->
        forall states', run <> Ok states')
    /\ (length (tokens body) <= 8 * length chunks -> forall states', run <> Ok states')
    /\ (length (tokens body) < 17 -> forall states', run <> Ok states').
Proof.
  intros Hb Hlen Htbl line run.
  destruct (read_lines_long (String.length body) body rest (le_n _) Hb)
    as (chunks & Hr & Hc & Hn & Hall).
  assert (read_lines (String.append line rest) = chunks ++ read_lines rest) as Hr'.
  { unfold line. by rewrite append_assoc, append_cons, append_nil_l. }
  assert (2 <= length chunks) as Hn2.
  { rewrite Hn. assert (1 <= String.length body / 99); [|lia].
    apply Nat.div_le_lower_bound; lia. }
  assert (run = (do t <- tbl_steps atof NUM_STATES chunks tbl;
                 do t' <- tbl_steps atof NUM_STATES (read_lines rest) t;
                 Ok (repr NUM_STATES t'))) as Hrun.
  { unfold run. rewrite analyze_file_repr by (done || (unfold NUM_STATES; lia)).
    rewrite Hr', tbl_steps_app.
    by destruct (tbl_steps atof NUM_STATES chunks tbl). }
  assert ((exists chunk, chunk ∈ chunks /\ length (tokens (c_str chunk)) < 9) ->
          forall states', run <> Ok states') as Hshort.
  { intros (chunk & Hin & Hlt) states'. rewrite Hrun.
    destruct (tbl_steps atof NUM_STATES chunks tbl) as [t| |] eqn:E; cbn [bind]; try done.
    pose proof (tbl_steps_ok_tokens _ _ _ _ _ _ E Hin). lia. }
  assert (length (tokens body) <= 8 * length chunks -> forall states', run <> Ok states')
    as Hfew.
  { intros Hle.
    destruct (decide (Forall (fun chunk => 9 <= length (tokens (c_str chunk))) chunks))
      as [Hnine|Hsome]; cycle 1.
    { apply Hshort. apply not_Forall_Exists in Hsome; [|solve_decision].
      apply Exists_exists in Hsome as (chunk & Hin & Hlt). exists chunk.
      split; [done|]. simpl in Hlt. lia. }
    exfalso.
    assert (Forall (fun chunk => 9 <= ntok true chunk) chunks) as Hnine'.
    { eapply Forall_impl; [exact Hnine|]. intros chunk H. simpl in H.
      rewrite tokens_length in H. pose proof (ntok_c_str true chunk). lia. }
    apply ntok_cat in Hnine'; [|by destruct chunks].
    rewrite Hc in Hnine'. unfold line in Hnine'.
    rewrite ntok_app_LF, <- tokens_length in Hnine'. lia. }
  exists chunks. split; [exact Hr'|]. split; [exact Hc|]. split; [exact Hn|].
  split; [exact Hn2|]. split; [exact Hall|]. split; [exact Hrun|].
  split; [|split; [exact Hshort|split; [exact Hfew|]]].
  - intros Hnine Hroom.
    destruct (tbl_steps_ok atof NUM_STATES chunks tbl Hnine Hroom) as [t Ht].
    exists t. split; [done|]. split; [by rewrite Hrun, Ht|]. split.
    + by apply tbl_steps_codes in Ht.
    + intros chunk Hin. by apply (tbl_steps_line_entry _ _ _ _ _ _ Ht).
  - intros Hlt. apply Hfew. lia.
Qed.

Lemma long_line_chunks_witness :
  String.length long_line = 138
  /\ exists chunks t tn wa,
       read_lines long_line = chunks
       /\ length chunks = 2
       /\ tbl_steps atof_decimal NUM_STATES chunks [] = Ok t
       /\ analyze_file atof_decimal long_line (repr NUM_STATES []) NUM_STATES
          = Ok (repr NUM_STATES t)
       /\ code <$> t = ["TN"; "WA"]
       /\ find_info "TN" t = Some tn /\ to_uint32 tn.(num_records) = 1%Z
       /\ find_info "WA" t = Some wa /\ wa.(temperature) = (0 + 280.5)%float.
Proof.
  split; [reflexivity|].
  destruct (long_line_chunks atof_decimal long_body EmptyString [])
    as (chunks & Hr & _ & Hn & _ & _ & _ & Hok & _).
  - vm_compute. reflexivity.
  - vm_compute. lia.
  - simpl. lia.
  - rewrite append_nil_r in Hr. change (read_lines EmptyString) with (@nil string) in Hr.
    rewrite app_nil_r in Hr. cbv zeta in Hok. rewrite append_nil_r in Hok.
    change (read_lines EmptyString) with (@nil string) in Hok.
    assert (read_lines long_line
            = [String.append
                 (join_tabs ["TN"; "1000"; "geo"; "50.0"; "0"; "60.0"; "1"; "1000.0"; "290.0"])
                 (copies 61 (String TAB EmptyString));
               line_WA]) as Hchunks by (vm_compute; reflexivity).
    unfold long_line in Hchunks. rewrite Hchunks in Hr. subst chunks.
    destruct Hok as (t & Ht & Hrun & Hcodes & Hentries).
    + repeat constructor; vm_compute; lia.
    + vm_compute. lia.
    + destruct (Hentries _ (list_elem_of_here _ _)) as (c1 & tn & Hc1 & Hf1 & Hn1 & _).
      destruct (Hentries line_WA (list_elem_of_further _ _ _ (list_elem_of_here _ _)))
        as (c2 & wa & Hc2 & Hf2 & _ & _ & Ht2).
      vm_compute in Hc1. injection Hc1 as <-. vm_compute in Hc2. injection Hc2 as <-.
      eexists. exists t, tn, wa. split; [exact Hchunks|]. split; [reflexivity|]. split; [exact Ht|].
      split; [exact Hrun|]. split; [exact Hcodes|]. split; [exact Hf1|].
      split; [exact Hn1|]. split; [exact Hf2|]. exact Ht2.
Defined.

(** C10 as stated fails: the line [long_TN], one observation of nine
    fields in 102 characters, is read in two pieces, of 99 and 3
    characters. The first is folded as a record of TN; the second has the
    one token 00, which is entered as a new state, and [analyze_file] then
    uses the [NULL] that [strtok] returns for the geolocation. The line is
    not folded as two records: the run has no defined result. *)
Lemma long_line_not_folded :
  String.length long_TN = 102
  /\ read_lines long_TN
     = [String.append (join_tabs ["TN"; "1000"; "geo"; "50.0"; "0"; "60.0"; "1"; "1000.0"; "290."])
            (copies 62 "0");
        String.append "00" (String LF EmptyString)]
  /\ (exists tn,
        analyze_line atof_decimal
          (String.append (join_tabs ["TN"; "1000"; "geo"; "50.0"; "0"; "60.0"; "1"; "1000.0"; "290."])
            (copies 62 "0"))
          (replicate NUM_STATES None) 0 NUM_STATES
        = Ok (<[0 := Some tn]> (replicate NUM_STATES None), 1)
        /\ analyze_line atof_decimal (String.append "00" (String LF EmptyString))
             (<[0 := Some tn]> (replicate NUM_STATES None)) 1 NUM_STATES
           = Undef)
  /\ analyze_file atof_decimal long_TN (replicate NUM_STATES None) NUM_STATES = Undef
  /\ term (main atof_decimal (fun _ => Some long_TN) "climate" ["data.tdv"]) = Undefined.
Proof.
  split; [reflexivity|]. split; [vm_compute; reflexivity|]. split.
  - eexists. split; vm_compute; reflexivity.
  - split; vm_compute; reflexivity.
Qed.

(** The line [long_line] leaves two accumulators, for TN and for WA, with
    one record each. *)
Example long_line_two_records :
  read_lines long_line
  = [String.append
       (join_tabs ["TN"; "1000"; "geo"; "50.0"; "0"; "60.0"; "1"; "1000.0"; "290.0"])
       (copies 61 (String TAB EmptyString));
     tdv ["WA"; "2000"; "c23"; "61.5"; "1"; "40.0"; "0"; "1010.0"; "280.5"]]
  /\ exists tn wa,
       analyze_file atof_decimal long_line (replicate NUM_STATES None) NUM_STATES
       = Ok (repr NUM_STATES [tn; wa])
       /\ (tn.(code), tn.(num_records)) = ("TN", 1%Z)
       /\ (wa.(code), wa.(num_records)) = ("WA", 1%Z).
Proof.
  split; [vm_compute; reflexivity|].
  eexists _, _. split; [vm_compute; reflexivity|]. split; reflexivity.
Qed.

(** ** Minimum and maximum temperature *)

Section Extrema.

Variable atof : string -> float.

(** What one observation does to the extrema: the minimum and its time
    stamp are set when the temperature is below the minimum; otherwise
    the maximum and its time stamp are set when the temperature is above
    the maximum; otherwise nothing changes. *)
Lemma fold_obs_extrema info ts g h sn cl lt pr tp :
  let temp := atof tp in
  let info' := fold_obs atof info ts g h sn cl lt pr tp in
  if (temp <? info.(minTemp))%float then
    info'.(minTemp) = temp /\ info'.(minTempTimestamp) = to_uint64 (atoll ts)
    /\ info'.(maxTemp) = info.(maxTemp)
    /\ info'.(maxTempTimestamp) = info.(maxTempTimestamp)
  else if (info.(maxTemp) <? temp)%float then
    info'.(maxTemp) = temp /\ info'.(maxTempTimestamp) = to_uint64 (atoll ts)
    /\ info'.(minTemp) = info.(minTemp)
    /\ info'.(minTempTimestamp) = info.(minTempTimestamp)
  else
    info'.(minTemp) = info.(minTemp)
    /\ info'.(minTempTimestamp) = info.(minTempTimestamp)
    /\ info'.(maxTemp) = info.(maxTemp)
    /\ info'.(maxTempTimestamp) = info.(maxTempTimestamp).
Proof.
  intros temp info'. subst temp info'. unfold fold_obs. cbv zeta. cbn [minTemp maxTemp
    set_temperature set_pressure set_lightning set_cloud set_snow set_avgHumidity
    set_geoLocation set_num_records].
  destruct (atof tp <? minTemp info)%float; [done|].
  by destruct (maxTemp info <? atof tp)%float.
Qed.

(** The first observation of a state meets the initial values
    [minTemp = -9999] and [maxTemp = 9999]: it never sets both extrema,
    and it leaves them different. *)
Lemma first_record_extrema c ts g h sn cl lt pr tp :
  let info' := fold_obs atof (new_info c) ts g h sn cl lt pr tp in
  ((info'.(minTemp) = (-9999)%float /\ info'.(minTempTimestamp) = 0%Z)
   \/ (info'.(maxTemp) = 9999%float /\ info'.(maxTempTimestamp) = 0%Z))
  /\ info'.(minTemp) <> info'.(maxTemp).
Proof.
  intros info'. pose proof (fold_obs_extrema (new_info c) ts g h sn cl lt pr tp) as H.
  cbv zeta in H. fold info' in H.
  change (minTemp (new_info c)) with (-9999)%float in H.
  change (maxTemp (new_info c)) with 9999%float in H.
  change (minTempTimestamp (new_info c)) with 0%Z in H.
  change (maxTempTimestamp (new_info c)) with 0%Z in H.
  destruct (atof tp <? -9999)%float eqn:E1; [|destruct (9999 <? atof tp)%float eqn:E2].
  - destruct H as (H1 & _ & H3 & H4). split; [by right|].
    rewrite H1, H3. intros Heq. rewrite Heq in E1. vm_compute in E1. discriminate.
  - destruct H as (H1 & _ & H3 & H4). split; [by left|].
    rewrite H1, H3. intros Heq. rewrite <- Heq in E2. vm_compute in E2. discriminate.
  - destruct H as (H1 & H2 & H3 & H4). split; [by left|].
    rewrite H1, H3. intros Heq.
    assert ((-9999 <? 0)%float = (9999 <? 0)%float) as Hc by (by rewrite Heq).
    vm_compute in Hc. discriminate.
Qed.

(** After any run that returns, an accumulator fed a single line has a
    minimum different from its maximum. *)
Lemma single_record_extrema_differ fopen argv tbl info l :
  tbl_steps atof NUM_STATES (all_lines fopen argv) [] = Ok tbl ->
  info ∈ tbl ->
  lines_of info.(code) (all_lines fopen argv) = [l] ->
  info.(minTemp) <> info.(maxTemp).
Proof.
  intros Hrun Hin Hl. destruct (run_entry _ _ _ _ _ Hrun Hin) as [_ Hf].
  rewrite Hl in Hf. cbn [fold_records] in Hf.
  destruct (fold_record atof (new_info (code info)) (line_saved l)) as [i1| |] eqn:E;
    simpl in Hf; try done.
  injection Hf as ->.
  assert (line_code l = Some (code info)) as Hc.
  { apply (lines_of_code _ (all_lines fopen argv)). rewrite Hl. apply list_elem_of_here. }
  destruct (fold_record_line _ _ _ _ _ Hc E) as [-> _].
  apply first_record_extrema.
Qed.

End Extrema.

(** C1, at the input of one line for TN with temperature 290.0: the
    accumulator has one record, its minimum is still -9999 and its maximum
    still 9999, neither is the temperature of the record, and the report
    prints them converted to Fahrenheit. *)
Theorem single_record_extrema_TN :
  exists info,
    analyze_file atof_decimal line_TN (replicate NUM_STATES None) NUM_STATES
    = Ok (repr NUM_STATES [info])
    /\ info.(num_records) = 1%Z
    /\ atof_decimal (field 8 line_TN) = 290%float
    /\ info.(minTemp) = (-9999)%float
    /\ info.(maxTemp) = 9999%float
    /\ (info.(minTemp) =? 290)%float = false
    /\ (info.(maxTemp) =? 290)%float = false
    /\ Printf "Max Temperature: %.1fF\n" [ADouble (9999 * 1.8 - 459.67)%float]
       ∈ state_block info
    /\ Printf "Min Temperature: %.1fF\n" [ADouble (-9999 * 1.8 - 459.67)%float]
       ∈ state_block info.
Proof.
  eexists. split; [vm_compute; reflexivity|].
  repeat split; try (vm_compute; reflexivity).
  - do 4 apply list_elem_of_further. apply list_elem_of_here.
  - do 6 apply list_elem_of_further. apply list_elem_of_here.
Qed.

(** C2, at the same input: the first record of TN, with time stamp 1000,
    updates neither extremum; both time stamps are still 0. A second line
    for TN with temperature -10000.5 and time stamp 3000 then sets the
    minimum only. *)
Theorem first_record_updates_neither :
  exists info,
    analyze_file atof_decimal line_TN (replicate NUM_STATES None) NUM_STATES
    = Ok (repr NUM_STATES [info])
    /\ atoll (field 1 line_TN) = 1000%Z
    /\ atof_decimal (field 8 line_TN) = 290%float
    /\ info.(minTemp) = (-9999)%float /\ info.(minTempTimestamp) = 0%Z
    /\ info.(maxTemp) = 9999%float /\ info.(maxTempTimestamp) = 0%Z
    /\ exists info',
         analyze_file atof_decimal line_TN_cold (repr NUM_STATES [info]) NUM_STATES
         = Ok (repr NUM_STATES [info'])
         /\ info'.(minTemp) = (-10000.5)%float /\ info'.(minTempTimestamp) = 3000%Z
         /\ info'.(maxTemp) = 9999%float /\ info'.(maxTempTimestamp) = 0%Z.
Proof.
  eexists. split; [vm_compute; reflexivity|].
  repeat split; try (vm_compute; reflexivity).
  eexists. split; [vm_compute; reflexivity|].
  repeat split; vm_compute; reflexivity.
Qed.

(** * Further properties of the program *)

(** ** [countStates] and [compareOrder] on any array *)

Lemma countStates_loop_spec (states : states_t) ns rounds num :
  num + rounds = ns ->
  (forall i, i < num -> is_Some (entry states i)) ->
  let n := countStates_loop rounds states ns num in
  n <= ns
  /\ (forall i, i < n -> is_Some (entry states i))
  /\ (n < ns -> entry states n = None).
Proof.
  revert num. induction rounds as [|r IH]; intros num Hn Hpre; cbn [countStates_loop].
  - cbv zeta. split; [lia|]. split; [done|lia].
  - destruct (entry states num) as [x|] eqn:E.
    + replace (num <? ns)%nat with true by (symmetry; apply Nat.ltb_lt; lia).
      rewrite bool_decide_eq_true_2 by eauto. cbn [andb]. apply IH; [lia|].
      intros i Hi. destruct (decide (i = num)) as [->|]; [rewrite E; eauto|apply Hpre; lia].
    + rewrite bool_decide_eq_false_2 by (by intros [? ?]). rewrite andb_false_r.
      cbv zeta. split; [lia|]. split; [done|]. done.
Qed.

(** X1. [countStates] returns the number of entries before the first
    [NULL], and [num_states] when there is none among the first
    [num_states] entries. *)
Theorem countStates_spec (states : states_t) num_states :
  let n := countStates states num_states in
  n <= num_states
  /\ (forall i, i < n -> is_Some (entry states i))
  /\ (n < num_states -> entry states n = None).
Proof. apply countStates_loop_spec; [done|]. intros i Hi. lia. Qed.

Lemma compareOrder_loop_spec (states : states_t) c cs rounds order :
  order + rounds = cs ->
  (forall j, j < order -> exists info, entry states j = Some info /\ info.(code) <> c) ->
  (exists i info,
     compareOrder_loop rounds states (Some c) cs order = Ok (Z.of_nat i)
     /\ i < cs /\ entry states i = Some info /\ info.(code) = c
     /\ forall j, j < i -> exists info', entry states j = Some info' /\ info'.(code) <> c)
  \/ (compareOrder_loop rounds states (Some c) cs order = Ok (-1)%Z
      /\ exists n, n <= cs
           /\ (forall j, j < n -> exists info', entry states j = Some info' /\ info'.(code) <> c)
           /\ (n < cs -> entry states n = None)).
Proof.
  revert order. induction rounds as [|r IH]; intros order Hn Hpre; cbn [compareOrder_loop].
  - right. split; [done|]. exists cs. split; [done|]. split; [|lia].
    intros j Hj. apply Hpre. lia.
  - replace (order <? cs)%nat with true by (symmetry; apply Nat.ltb_lt; lia).
    destruct (entry states order) as [x|] eqn:E.
    + cbn [deref bind]. destruct (String.eqb (code x) c) eqn:Ec.
      * apply String.eqb_eq in Ec. left. exists order, x. repeat split; [lia|done..].
      * apply String.eqb_neq in Ec. apply IH; [lia|].
        intros j Hj. destruct (decide (j = order)) as [->|]; [by exists x|apply Hpre; lia].
    + right. split; [done|]. exists order. split; [lia|]. split; [done|]. done.
Qed.

(** X2. [compareOrder] with a code that is not [NULL] returns the
    position of the first entry with this code, all entries before it
    being accumulators of other codes; or it returns [-1], and then no
    entry has the code among the first [currentStates] entries up to the
    first [NULL]. It has no other outcome. *)
Theorem compareOrder_spec (states : states_t) c currentStates :
  (exists i info,
     compareOrder states (Some c) currentStates = Ok (Z.of_nat i)
     /\ i < currentStates /\ entry states i = Some info /\ info.(code) = c
     /\ forall j, j < i -> exists info', entry states j = Some info' /\ info'.(code) <> c)
  \/ (compareOrder states (Some c) currentStates = Ok (-1)%Z
      /\ exists n, n <= currentStates
           /\ (forall j, j < n -> exists info', entry states j = Some info' /\ info'.(code) <> c)
           /\ (n < currentStates -> entry states n = None)).
Proof. apply compareOrder_loop_spec; [done|]. intros j Hj. lia. Qed.

(** ** What [analyze_file] keeps *)

(** X3. [analyze_file] keeps the shape of the array: accumulators in the
    first entries, [NULL] in the others, the same length. It never removes
    or moves an accumulator or changes its code: the codes before the call
    are the first codes after it, new ones follow; codes that were
    different stay different; [countStates] counts them. *)
Theorem analyze_file_keeps_table atof file tbl ns states' :
  length tbl <= ns -> 0 < ns ->
  analyze_file atof file (repr ns tbl) ns = Ok states' ->
  exists tbl',
    states' = repr ns tbl'
    /\ length tbl' <= ns
    /\ length states' = ns
    /\ countStates states' ns = length tbl'
    /\ (exists new, code <$> tbl' = (code <$> tbl) ++ new)
    /\ (NoDup (code <$> tbl) -> NoDup (code <$> tbl')).
Proof.
  intros Hlen Hns. rewrite analyze_file_repr by done.
  destruct (tbl_steps atof ns (read_lines file) tbl) as [tbl'| |] eqn:E; simpl; try done.
  intros [= <-]. exists tbl'.
  pose proof (tbl_steps_length _ _ _ _ _ E Hlen) as Hlen'.
  split; [done|]. split; [done|]. split; [by apply length_repr|].
  split; [by apply countStates_repr|].
  rewrite (tbl_steps_codes _ _ _ _ _ E). split.
  - apply fold_first_seen_prefix.
  - apply fold_first_seen_NoDup.
Qed.

Lemma analyze_file_keeps_table_witness :
  exists tbl',
    analyze_file atof_decimal (String.append line_WA line_TN) (repr NUM_STATES []) NUM_STATES
    = Ok (repr NUM_STATES tbl')
    /\ countStates (repr NUM_STATES tbl') NUM_STATES = length tbl'.
Proof.
  destruct (analyze_file atof_decimal (String.append line_WA line_TN)
              (repr NUM_STATES []) NUM_STATES) as [states'| |] eqn:E;
    [|vm_compute in E; discriminate..].
  destruct (analyze_file_keeps_table atof_decimal (String.append line_WA line_TN)
              [] NUM_STATES states')
    as (tbl' & -> & _ & _ & Hc & _); [simpl; lia|unfold NUM_STATES; lia|exact E|].
  exists tbl'. split; [reflexivity|exact Hc].
Defined.

(** ** The outcomes of the loop body *)

Section LoopBody.

Variable atof : string -> float.

Lemma fold_record_take8 info saved :
  fold_record atof info saved
  = match take 8 (tokens saved) with
    | [ts; g; h; sn; cl; lt; pr; tp] => Ok (fold_obs atof info ts g h sn cl lt pr tp)
    | _ => Undef
    end.
Proof.
  rewrite fold_record_spec.
  by destruct (tokens saved) as [|ts [|g [|h [|sn [|cl [|lt [|pr [|tp rest]]]]]]]].
Qed.

(** The loop body reads the line through its first nine tokens only. *)
Lemma analyze_line_tokens l1 l2 (states : states_t) cs ns :
  take 9 (tokens (c_str l1)) = take 9 (tokens (c_str l2)) ->
  analyze_line atof l1 states cs ns = analyze_line atof l2 states cs ns.
Proof.
  rewrite (tokens_unfold (c_str l1)), (tokens_unfold (c_str l2)). unfold analyze_line.
  destruct (strtok (c_str l1) delims) as [[c1|] s1] eqn:E1;
    destruct (strtok (c_str l2) delims) as [[c2|] s2] eqn:E2; cbn [take]; try done.
  - intros [= -> H8].
    assert (forall info, fold_record atof info s1 = fold_record atof info s2) as Hf.
    { intros info. by rewrite !fold_record_take8, H8. }
    destruct (compareOrder states (Some c2) cs) as [z| |]; simpl; try done.
    destruct (z =? -1)%Z.
    + destruct (ns <=? cs)%nat; simpl; [done|].
      destruct (strcpy_code (Some c2)); simpl; try done.
      destruct (entry _ cs); simpl; [|done]. by rewrite Hf.
    + simpl. destruct (entry states (Z.to_nat z)); simpl; [|done]. by rewrite Hf.
  - intros _. apply strtok_NULL in E1, E2. by subst.
Qed.

Lemma skip_delims_app_delim t d :
  is_delim delims d = true ->
  skip_delims delims (String.append t (String d EmptyString))
  = match skip_delims delims t with
    | EmptyString => EmptyString
    | String c r => String.append (String c r) (String d EmptyString)
    end.
Proof.
  intros Hd. induction t as [|c t IH].
  - rewrite append_nil_l. cbn [skip_delims]. by rewrite Hd.
  - rewrite append_cons. cbn [skip_delims]. destruct (is_delim delims c); [done|].
    by rewrite append_cons.
Qed.

Lemma scan_token_app_delim u d tok r :
  is_delim delims d = true ->
  scan_token delims u = (tok, r) ->
  exists r2, scan_token delims (String.append u (String d EmptyString)) = (tok, r2)
             /\ (r2 = String.append r (String d EmptyString)
                 \/ (r2 = EmptyString /\ r = EmptyString)).
Proof.
  intros Hd. revert tok r. induction u as [|c u IH]; intros tok r.
  - cbn [scan_token]. intros [= <- <-]. rewrite append_nil_l. cbn [scan_token].
    rewrite Hd. exists EmptyString. split; [done|]. by right.
  - rewrite append_cons. cbn [scan_token]. destruct (is_delim delims c).
    + intros [= <- <-]. eexists. split; [done|]. by left.
    + destruct (scan_token delims u) as [t' r'] eqn:E. intros [= <- <-].
      destruct (IH _ _ eq_refl) as (r2 & -> & Hr). by exists r2.
Qed.

(** A delimiter at the end of a string adds no token. *)
Lemma tokens_app_delim t d :
  is_delim delims d = true ->
  tokens (String.append t (String d EmptyString)) = tokens t.
Proof.
  intros Hd. remember (String.length t) as n eqn:Hn.
  assert (String.length t <= n) as Hle by lia. clear Hn.
  revert t Hle. induction n as [|n IH]; intros t Hle.
  - destruct t; [|simpl in Hle; lia]. rewrite append_nil_l. by rewrite tokens_delim.
  - rewrite (tokens_unfold (String.append t _)), (tokens_unfold t).
    unfold strtok at 1. rewrite skip_delims_app_delim by done.
    destruct (strtok t delims) as [o r] eqn:Es. pose proof Es as Es'. unfold strtok in Es.
    destruct (skip_delims delims t) as [|c u]; [by injection Es as <- <-|].
    destruct (scan_token delims (String c u)) as [tok r'] eqn:E. injection Es as <- <-.
    destruct (scan_token_app_delim _ d _ _ Hd E) as (r2 & Hs & Hr).
    rewrite append_cons in Hs |- *. cbv iota. rewrite Hs.
    apply strtok_progress in Es'. f_equal.
    destruct Hr as [->|[-> ->]]; [apply IH; lia|done].
Qed.

Lemma c_str_app_LF s :
  c_str (String.append s (String LF EmptyString)) = c_str s
  \/ c_str (String.append s (String LF EmptyString))
     = String.append (c_str s) (String LF EmptyString).
Proof.
  induction s as [|c s IH]; [by right|].
  rewrite append_cons. cbn [c_str]. destruct (Ascii.eqb c NUL); [by left|].
  destruct IH as [->| ->]; [by left|by right].
Qed.

End LoopBody.

(** X4. On an array that holds a table, the loop body of [analyze_file]
    has one of three outcomes, and the line and the table decide which.
    It completes when the line has at least nine tokens and its first
    token is a code of the table, or is a new code of at most two
    characters and the table is not full. It calls [exit] when the first
    token is a new code and the table is full. In all other cases its
    behaviour is undefined: no token, fewer than nine tokens, or a new
    code of more than two characters. *)
Theorem analyze_line_outcome atof line tbl ns :
  length tbl <= ns -> 0 < ns ->
  let toks := tokens (c_str line) in
  match analyze_line atof line (repr ns tbl) (length tbl) ns with
  | Ok _ =>
      exists c, head toks = Some c /\ 9 <= length toks
                /\ (c ∈ code <$> tbl \/ (length tbl < ns /\ String.length c <= 2))
  | Exit status msg =>
      exists c, head toks = Some c /\ (c ∉ code <$> tbl) /\ length tbl = ns
                /\ status = EXIT_FAILURE /\ msg = too_many_states ns
  | Undef =>
      toks = []
      \/ exists c, head toks = Some c
           /\ ((c ∈ code <$> tbl /\ length toks < 9)
               \/ ((c ∉ code <$> tbl) /\ length tbl < ns
                   /\ (2 < String.length c \/ length toks < 9)))
  end.
Proof.
  intros Hlen Hns toks. subst toks. rewrite analyze_line_repr by done.
  unfold tbl_step. rewrite tokens_line.
  destruct (line_code line) as [c|]; [|by left].
  destruct (index_of c tbl) as [i|] eqn:Hi.
  - destruct (index_of_Some _ _ _ Hi) as (info & Hl & Hc & _). rewrite Hl. cbn [deref bind].
    assert (c ∈ code <$> tbl) as Hin.
    { apply list_elem_of_fmap. exists info. split; [done|].
      by apply list_elem_of_lookup_2 in Hl. }
    rewrite fold_record_spec.
    destruct (tokens (line_saved line)) as [|ts [|g [|h [|sn [|cl [|lt [|pr [|tp rest]]]]]]]];
      cbn [bind];
      try (right; exists c; split; [done|]; left; split; [done|simpl; lia]).
    exists c. split; [done|]. split; [simpl; lia|by left].
  - apply index_of_None in Hi.
    destruct (ns <=? length tbl)%nat eqn:Hcap.
    + apply Nat.leb_le in Hcap. exists c. assert (length tbl = ns) as Heq by lia.
      rewrite Heq. done.
    + apply Nat.leb_gt in Hcap. unfold strcpy_code. cbn [deref bind].
      destruct (String.length c <=? 2)%nat eqn:Hc2; cbn [bind].
      * apply Nat.leb_le in Hc2. rewrite fold_record_spec.
        destruct (tokens (line_saved line))
          as [|ts [|g [|h [|sn [|cl [|lt [|pr [|tp rest]]]]]]]];
          cbn [bind];
          try (right; exists c; split; [done|]; right; split; [done|];
               split; [done|]; right; simpl; lia).
        exists c. split; [done|]. split; [simpl; lia|]. right. done.
      * apply Nat.leb_gt in Hc2. right. exists c. split; [done|]. right.
        split; [done|]. split; [done|]. by left.
Qed.

Lemma analyze_line_outcome_witness :
  analyze_line atof_decimal line_5_fields (repr NUM_STATES []) 0 NUM_STATES = Undef
  /\ (tokens (c_str line_5_fields) = []
      \/ exists c, head (tokens (c_str line_5_fields)) = Some c
           /\ ((c ∈ code <$> [] /\ length (tokens (c_str line_5_fields)) < 9)
               \/ ((c ∉ code <$> []) /\ 0 < NUM_STATES
                   /\ (2 < String.length c \/ length (tokens (c_str line_5_fields)) < 9)))).
Proof.
  pose proof (analyze_line_outcome atof_decimal line_5_fields [] NUM_STATES) as H.
  assert (analyze_line atof_decimal line_5_fields (repr NUM_STATES []) 0 NUM_STATES = Undef)
    as E by (vm_compute; reflexivity).
  split; [exact E|].
  specialize (H ltac:(simpl; lia) ltac:(unfold NUM_STATES; lia)).
  cbv zeta in H. change (length (@nil climate_info)) with 0 in H. rewrite E in H. exact H.
Defined.

(** X5. The loop body reads a line through its first nine tokens only:
    two lines with the same first nine tokens have the same effect, on any
    array. Fields after the ninth are ignored, and so are empty fields,
    since [strtok] takes a run of delimiters for one. *)
Theorem analyze_line_first_nine_tokens atof l1 l2 (states : states_t) currentStates ns :
  take 9 (tokens (c_str l1)) = take 9 (tokens (c_str l2)) ->
  analyze_line atof l1 states currentStates ns = analyze_line atof l2 states currentStates ns.
Proof. apply analyze_line_tokens. Qed.

Lemma analyze_line_first_nine_tokens_witness :
  line_TN_extra <> line_TN
  /\ analyze_line atof_decimal line_TN_extra (replicate NUM_STATES None) 0 NUM_STATES
     = analyze_line atof_decimal line_TN (replicate NUM_STATES None) 0 NUM_STATES.
Proof.
  split; [discriminate|].
  apply analyze_line_first_nine_tokens. vm_compute. reflexivity.
Defined.

(** X6. The newline that ends a line has no effect on the loop body: a
    buffer without it, as [fgets] fills it from a last line that the file
    does not end with a newline, is folded like the buffer with it. *)
Theorem analyze_line_final_newline atof line (states : states_t) currentStates ns :
  analyze_line atof (String.append line (String LF EmptyString)) states currentStates ns
  = analyze_line atof line states currentStates ns.
Proof.
  apply analyze_line_tokens. f_equal.
  destruct (c_str_app_LF line) as [-> | ->]; [done|]. by apply tokens_app_delim.
Qed.

(** ** Reading a file line by line *)

Lemma fgets_chars_shape room s l r :
  fgets_chars room s = (l, r) ->
  exists b, no_LF b = true /\ (l = b \/ l = String.append b (String LF EmptyString)).
Proof.
  revert s l r. induction room as [|room IH]; intros s l r; cbn [fgets_chars].
  - intros [= <- _]. exists EmptyString. split; [done|by left].
  - destruct s as [|c s]; [intros [= <- _]; exists EmptyString; split; [done|by left]|].
    destruct (Ascii.eqb c LF) eqn:Ec.
    + intros [= <- _]. apply Ascii.eqb_eq in Ec as ->. exists EmptyString.
      split; [done|by right].
    + destruct (fgets_chars room s) as [l' r'] eqn:E. intros [= <- _].
      destruct (IH _ _ _ E) as (b & Hb & Hl). exists (String c b). split.
      * cbn [no_LF]. by rewrite Ec, Hb.
      * destruct Hl as [->| ->]; [by left|by right].
Qed.

Lemma fgets_shape size s l r :
  fgets size s = Some (l, r) ->
  exists b, no_LF b = true /\ (l = b \/ l = String.append b (String LF EmptyString)).
Proof.
  unfold fgets. destruct s as [|c s]; [done|]. generalize (size - 1). intros room H.
  apply (inj Some) in H. by eapply fgets_chars_shape.
Qed.

Lemma read_lines_partition_rounds n file :
  String.length file <= n ->
  cat (read_lines file) = file
  /\ Forall (fun l => 1 <= String.length l <= 99
                      /\ exists b, no_LF b = true
                           /\ (l = b \/ l = String.append b (String LF EmptyString)))
            (read_lines file).
Proof.
  revert file. induction n as [|n IH]; intros file Hn.
  - destruct file; [|simpl in Hn; lia]. split; [done|]. rewrite read_lines_unfold. constructor.
  - rewrite read_lines_unfold.
    destruct (fgets line_sz file) as [[line rest]|] eqn:E.
    + pose proof (fgets_progress _ _ _ E) as Hp.
      pose proof (fgets_split _ _ _ _ E) as [Hs Hl]. change (line_sz - 1) with 99 in Hl.
      destruct (IH rest ltac:(lia)) as [Hc Hall]. split.
      * cbn [cat]. by rewrite Hc.
      * apply Forall_cons. split; [|done]. split.
        -- rewrite Hs, length_append in Hp. lia.
        -- by eapply fgets_shape.
    + destruct file; [|done]. split; [done|constructor].
Qed.

(** X7. The loop of [analyze_file] takes the file apart without losing
    or adding a character: the lines it reads, one after the other, are
    the file. Every line has between 1 and 99 characters and no newline
    except, possibly, as its last character. *)
Theorem read_lines_partition file :
  cat (read_lines file) = file
  /\ Forall (fun l => 1 <= String.length l <= 99
                      /\ exists b, no_LF b = true
                           /\ (l = b \/ l = String.append b (String LF EmptyString)))
            (read_lines file).
Proof. by apply (read_lines_partition_rounds (String.length file)). Qed.

Lemma ends_LF_cons c s : s <> EmptyString -> ends_LF (String c s) = ends_LF s.
Proof. by destruct s. Qed.

Lemma fgets_chars_app room s1 s2 :
  ends_LF s1 = true -> s1 <> EmptyString ->
  fgets_chars room (String.append s1 s2)
  = ((fgets_chars room s1).1, String.append (fgets_chars room s1).2 s2)
  /\ ends_LF (fgets_chars room s1).2 = true.
Proof.
  revert s1. induction room as [|room IH]; intros s1 He Hne; cbn [fgets_chars].
  - done.
  - destruct s1 as [|c s1]; [done|]. rewrite append_cons. cbn [fgets_chars].
    destruct (Ascii.eqb c LF) eqn:Ec.
    + cbn [fst snd]. split; [done|]. destruct s1; [done|]. by rewrite ends_LF_cons in He.
    + destruct s1 as [|c' s1]; [cbn [ends_LF] in He; congruence|].
      rewrite ends_LF_cons in He by done.
      destruct (IH (String c' s1) He ltac:(done)) as [-> Hr].
      destruct (fgets_chars room (String c' s1)) as [l r]. done.
Qed.

(** After a stream that ends with a newline the next stream is read as
    on its own. *)
Lemma read_lines_app f1 f2 :
  ends_LF f1 = true ->
  read_lines (String.append f1 f2) = read_lines f1 ++ read_lines f2.
Proof.
  remember (String.length f1) as n eqn:Hn.
  assert (String.length f1 <= n) as Hle by lia. clear Hn.
  revert f1 Hle. induction n as [|n IH]; intros f1 Hle He.
  - destruct f1; [|simpl in Hle; lia]. by rewrite append_nil_l.
  - destruct f1 as [|c f1]; [by rewrite append_nil_l|].
    rewrite (read_lines_unfold (String.append _ _)), (read_lines_unfold (String c f1)).
    rewrite append_cons. unfold fgets. rewrite <- append_cons.
    destruct (fgets_chars_app (line_sz - 1) (String c f1) f2 He ltac:(done)) as [-> Hr].
    pose proof (fgets_progress (String c f1)) as Hp. unfold fgets in Hp.
    destruct (fgets_chars (line_sz - 1) (String c f1)) as [l r]. cbn [fst snd] in *.
    specialize (Hp l r eq_refl). simpl in Hp, Hle.
    rewrite IH by (done || lia). done.
Qed.

(** X8. Reading two files one after the other is reading them as one
    file, when the first is empty or ends with a newline: [analyze_file]
    on the second after [analyze_file] on the first leaves the array that
    [analyze_file] on their concatenation leaves, and fails as it does. *)
Theorem analyze_file_concat atof f1 f2 tbl ns :
  ends_LF f1 = true -> length tbl <= ns -> 0 < ns ->
  analyze_file atof (String.append f1 f2) (repr ns tbl) ns
  = do states <- analyze_file atof f1 (repr ns tbl) ns; analyze_file atof f2 states ns.
Proof.
  intros He Hlen Hns. rewrite !analyze_file_repr by done.
  rewrite read_lines_app, tbl_steps_app by done.
  destruct (tbl_steps atof ns (read_lines f1) tbl) as [t| |] eqn:E; cbn [bind]; [|done..].
  rewrite analyze_file_repr; [done| |done]. by eapply tbl_steps_length.
Qed.

Lemma analyze_file_concat_witness :
  analyze_file atof_decimal (String.append (String.append line_TN line_WA) line_TN_cold)
               (repr NUM_STATES []) NUM_STATES
  = do states <- analyze_file atof_decimal (String.append line_TN line_WA)
                              (repr NUM_STATES []) NUM_STATES;
    analyze_file atof_decimal line_TN_cold states NUM_STATES.
Proof.
  apply (analyze_file_concat atof_decimal (String.append line_TN line_WA) line_TN_cold []
                             NUM_STATES).
  - reflexivity.
  - simpl. lia.
  - unfold NUM_STATES. lia.
Defined.

(** ** The outcomes of [main] *)

Section MainOutcomes.

Variable atof : string -> float.
Variable fopen : string -> option string.

Lemma tbl_steps_exit_msg ns lines tbl status msg :
  tbl_steps atof ns lines tbl = Exit status msg -> length tbl <= ns ->
  status = EXIT_FAILURE /\ msg = too_many_states ns.
Proof.
  revert tbl. induction lines as [|l lines IH]; intros tbl; cbn [tbl_steps]; [done|].
  destruct (tbl_step atof ns l tbl) as [t|st m|] eqn:E; cbn [bind]; [| |done].
  - intros H Hlen. apply (IH _ H). by eapply tbl_step_length.
  - intros [= -> ->] Hlen. apply tbl_step_exit in E as (c & _ & _ & Hfull & -> & ->).
    split; [done|]. f_equal. lia.
Qed.

Lemma all_lines_empty argv :
  (forall p file, p ∈ argv -> fopen p = Some file -> file = EmptyString) ->
  all_lines fopen argv = [].
Proof.
  induction argv as [|p argv IH]; intros H; [done|].
  rewrite all_lines_cons, IH by (intros q f Hq; apply H, elem_of_cons; by right).
  destruct (fopen p) as [file|] eqn:E; [|done].
  rewrite (H p file) by (done || apply elem_of_cons; by left). done.
Qed.

End MainOutcomes.

(** X9. [main] ends in one of four ways. It returns 0, with arguments
    given, after printing the report, and then [stderr] has exactly the
    messages for the files that did not open. It returns [EXIT_FAILURE]
    when no argument is given. It calls [exit(EXIT_FAILURE)] after the
    message that there are already 50 states. Or its behaviour is
    undefined, which only the handling of a line read from a file that
    opened brings about. When it returns [EXIT_FAILURE] or calls [exit],
    nothing was printed on [stdout]: there is no partial report. Nothing
    is said of the output of a run whose behaviour is undefined. *)
Theorem main_outcomes atof fopen prog argv :
  let run := main atof fopen prog argv in
  match term run with
  | Returned status =>
      (status = 0%Z /\ argv <> [] /\ stderr run = open_errors fopen argv 1
       /\ head (stdout run) = Some (Printf "States found: " []))
      \/ (status = EXIT_FAILURE /\ argv = [] /\ stdout run = [])
  | Exited status =>
      status = EXIT_FAILURE /\ argv <> [] /\ stdout run = []
      /\ exists err, stderr run = err ++ [too_many_states NUM_STATES]
  | Undefined =>
      argv <> [] /\ tbl_steps atof NUM_STATES (all_lines fopen argv) [] = Undef
  end.
Proof.
  intros run. subst run. destruct argv as [|a argv]; [by right|].
  pose proof (main_spec atof fopen prog (a :: argv) ltac:(done)) as Hm.
  destruct (tbl_steps atof NUM_STATES (all_lines fopen (a :: argv)) [])
    as [tbl|st m|] eqn:E.
  - rewrite Hm. cbn [term stderr stdout]. left. done.
  - destruct Hm as [err ->]. cbn [term stderr stdout].
    apply tbl_steps_exit_msg in E as [-> ->]; [|simpl; lia].
    repeat split; [done|]. by exists err.
  - destruct Hm as [err ->]. done.
Qed.

(** X10. When arguments are given and none of them names a file with
    contents (each does not open, or opens empty), [main] returns 0 and
    the report is the summary line with no state and its newline, without
    per-state block; [stderr] has the messages for the files that did not
    open. *)
Theorem no_lines_empty_report atof fopen prog argv :
  argv <> [] ->
  (forall p file, p ∈ argv -> fopen p = Some file -> file = EmptyString) ->
  main atof fopen prog argv
  = mk_outcome (Returned 0) (open_errors fopen argv 1)
               [Printf "States found: " []; Printf "\n" []].
Proof.
  intros Hne Hempty. pose proof (main_spec atof fopen prog argv Hne) as Hm.
  rewrite (all_lines_empty fopen argv Hempty) in Hm. cbn [tbl_steps] in Hm.
  rewrite Hm. f_equal.
Qed.

Lemma no_lines_empty_report_witness :
  main atof_decimal sample_fs "climate" ["missing.tdv"; "nope.tdv"]
  = mk_outcome (Returned 0) [cannot_open 1; cannot_open 2]
               [Printf "States found: " []; Printf "\n" []].
Proof.
  rewrite (no_lines_empty_report atof_decimal sample_fs "climate" ["missing.tdv"; "nope.tdv"]).
  - reflexivity.
  - discriminate.
  - intros p file Hp. apply elem_of_cons in Hp as [->|Hp];
      [|apply list_elem_of_singleton in Hp as ->]; discriminate.
Defined.

(** X11. In the report of a run that returns every state code of the
    input has exactly one block: the codes of the blocks are the codes of
    the lines read, none of them twice, and there are at most 50. *)
Theorem report_codes_unique atof fopen prog argv :
  term (main atof fopen prog argv) = Returned 0 ->
  let codes := block_codes (stdout (main atof fopen prog argv)) in
  NoDup codes
  /\ length codes <= NUM_STATES
  /\ forall c, c ∈ codes <-> exists l, l ∈ all_lines fopen argv /\ line_code l = Some c.
Proof.
  intros Hret codes. destruct (main_returned _ _ _ _ Hret) as (tbl & Hrun & Hmain).
  pose proof (tbl_steps_length _ _ _ _ _ Hrun ltac:(simpl; lia)) as Hlen.
  destruct (report_codes tbl NUM_STATES Hlen) as [Hb _].
  subst codes. rewrite Hmain. cbn [stdout]. rewrite Hb.
  split; [|split].
  - rewrite (run_codes _ _ _ _ Hrun). apply first_seen_NoDup.
  - by rewrite length_fmap.
  - intros c. rewrite (run_codes _ _ _ _ Hrun), first_seen_elem.
    unfold codes_of. by rewrite list_elem_of_omap.
Qed.

Lemma report_codes_unique_witness :
  NoDup (block_codes (stdout (main atof_decimal sample_fs "climate" ["tn.tdv"; "wa.tdv"]))).
Proof.
  destruct (report_codes_unique atof_decimal sample_fs "climate" ["tn.tdv"; "wa.tdv"])
    as [H _]; [vm_compute; reflexivity|exact H].
Defined.

(** ** One accumulator and the lines of its state *)

Section OwnLines.

Variable atof : string -> float.

Lemma run_find ns lines tbl c :
  tbl_steps atof ns lines [] = Ok tbl ->
  match find_info c tbl with
  | Some info => fold_records atof (new_info c) (lines_of c lines) = Ok info
  | None => lines_of c lines = []
  end.
Proof.
  intros H. pose proof (tbl_steps_find _ _ _ _ _ c H) as Hs.
  destruct (lines_of c lines) as [|l ls].
  - cbn [find_info] in Hs. by rewrite Hs.
  - destruct Hs as (info' & -> & Hf). exact Hf.
Qed.

Lemma run_find_eq ns lines1 lines2 t1 t2 c :
  tbl_steps atof ns lines1 [] = Ok t1 ->
  tbl_steps atof ns lines2 [] = Ok t2 ->
  lines_of c lines1 = lines_of c lines2 ->
  find_info c t1 = find_info c t2.
Proof.
  intros H1 H2 Hl.
  pose proof (tbl_steps_find _ _ _ _ _ c H1) as Hs1.
  pose proof (tbl_steps_find _ _ _ _ _ c H2) as Hs2.
  rewrite <- Hl in Hs2. destruct (lines_of c lines1) as [|l ls].
  - cbn [find_info] in Hs1, Hs2. congruence.
  - destruct Hs1 as (i1 & -> & Hf1), Hs2 as (i2 & -> & Hf2). congruence.
Qed.

Lemma fold_left_Zadd l a : fold_left Z.add l a = (a + fold_left Z.add l 0)%Z.
Proof.
  revert a. induction l as [|x l IH]; intros a; simpl; [lia|].
  rewrite (IH (a + x)%Z), (IH (0 + x)%Z). lia.
Qed.

Lemma to_int32_add z k : to_int32 (to_int32 z + k) = to_int32 (z + k).
Proof.
  unfold to_int32. f_equal.
  replace ((z + 2 ^ 31) mod 2 ^ 32 - 2 ^ 31 + k + 2 ^ 31)%Z
    with ((z + 2 ^ 31) mod 2 ^ 32 + k)%Z by lia.
  rewrite Zplus_mod_idemp_l. f_equal. lia.
Qed.

Lemma to_int32_range z : (- 2 ^ 31 <= to_int32 z < 2 ^ 31)%Z.
Proof.
  unfold to_int32. pose proof (Z.mod_pos_bound (z + 2 ^ 31) (2 ^ 32) ltac:(lia)). lia.
Qed.

Lemma to_int32_small z : (- 2 ^ 31 <= z < 2 ^ 31)%Z -> to_int32 z = z.
Proof. intros H. unfold to_int32. rewrite Z.mod_small; lia. Qed.

Lemma fold_obs_fields info ts g h sn cl lt pr tp :
  let info' := fold_obs atof info ts g h sn cl lt pr tp in
  info'.(snow) = to_int32 (info.(snow) + atoi sn)
  /\ info'.(lightning) = to_int32 (info.(lightning) + atoi lt)
  /\ info'.(cloud) = (info.(cloud) + atof cl)%float
  /\ info'.(pressure) = (info.(pressure) + atof pr)%float.
Proof.
  unfold fold_obs. cbv zeta.
  repeat match goal with |- context [if ?b then _ else _] => destruct b end; done.
Qed.

(** The other running sums of an accumulator: snow (token 4), cloud
    cover (token 5), lightning (token 6), pressure (token 7). *)
Lemma fold_records_fields info ls info' :
  (forall l, l ∈ ls -> is_Some (line_code l)) ->
  fold_records atof info ls = Ok info' ->
  to_int32 info'.(snow)
  = to_int32 (info.(snow) + Z_sum (map (fun l => atoi (field 4 l)) ls))
  /\ to_int32 info'.(lightning)
     = to_int32 (info.(lightning) + Z_sum (map (fun l => atoi (field 6 l)) ls))
  /\ info'.(cloud)
     = fold_left PrimFloat.add (map (fun l => atof (field 5 l)) ls) info.(cloud)
  /\ info'.(pressure)
     = fold_left PrimFloat.add (map (fun l => atof (field 7 l)) ls) info.(pressure)
  /\ (ls <> [] -> (- 2 ^ 31 <= info'.(snow) < 2 ^ 31)%Z
                  /\ (- 2 ^ 31 <= info'.(lightning) < 2 ^ 31)%Z).
Proof.
  unfold Z_sum. revert info. induction ls as [|l ls IH]; intros info Hall; cbn [fold_records].
  - intros [= <-]. simpl. rewrite !Z.add_0_r. done.
  - destruct (fold_record atof info (line_saved l)) as [i1| |] eqn:E; cbn [bind]; try done.
    intros H. destruct (Hall l) as [c Hc]; [apply elem_of_cons; by left|].
    destruct (fold_record_line _ _ _ _ _ Hc E) as [Hi1 _].
    pose proof (fold_obs_fields info (field 1 l) (field 2 l) (field 3 l) (field 4 l)
                  (field 5 l) (field 6 l) (field 7 l) (field 8 l)) as Hfl.
    cbv zeta in Hfl. rewrite <- Hi1 in Hfl. destruct Hfl as (Hs & Hlt & Hcl & Hpr).
    destruct (IH i1 ltac:(intros; apply Hall, elem_of_cons; by right) H)
      as (H1 & H2 & H3 & H4 & H5).
    cbn [map fold_left]. rewrite H1, H2, H3, H4, Hs, Hlt, Hcl, Hpr.
    rewrite (fold_left_Zadd (map (fun l => atoi (field 4 l)) ls) (0 + atoi (field 4 l))%Z).
    rewrite (fold_left_Zadd (map (fun l => atoi (field 6 l)) ls) (0 + atoi (field 6 l))%Z).
    rewrite !to_int32_add.
    split; [f_equal; lia|]. split; [f_equal; lia|]. split; [done|]. split; [done|].
    intros _. destruct ls as [|l' ls].
    + injection H as <-. rewrite Hs, Hlt. split; apply to_int32_range.
    + apply H5. done.
Qed.

(** With all temperatures in the initial range, the extrema and their
    time stamps stay as they are made. *)
Lemma fold_records_extrema_initial info ls info' :
  (forall l, l ∈ ls -> is_Some (line_code l)) ->
  (forall l, l ∈ ls -> in_initial_range (atof (field 8 l)) = true) ->
  info.(minTemp) = (-9999)%float -> info.(maxTemp) = 9999%float ->
  fold_records atof info ls = Ok info' ->
  info'.(minTemp) = (-9999)%float /\ info'.(maxTemp) = 9999%float
  /\ info'.(minTempTimestamp) = info.(minTempTimestamp)
  /\ info'.(maxTempTimestamp) = info.(maxTempTimestamp).
Proof.
  revert info. induction ls as [|l ls IH]; intros info Hall Hrange Hmin Hmax;
    cbn [fold_records].
  - by intros [= <-].
  - destruct (fold_record atof info (line_saved l)) as [i1| |] eqn:E; cbn [bind]; try done.
    intros H. destruct (Hall l) as [c Hc]; [apply elem_of_cons; by left|].
    destruct (fold_record_line _ _ _ _ _ Hc E) as [Hi1 _].
    pose proof (fold_obs_extrema atof info (field 1 l) (field 2 l) (field 3 l) (field 4 l)
                  (field 5 l) (field 6 l) (field 7 l) (field 8 l)) as Hex.
    cbv zeta in Hex. rewrite <- Hi1, Hmin, Hmax in Hex.
    specialize (Hrange l ltac:(apply elem_of_cons; by left)) as Hr.
    unfold in_initial_range in Hr. apply andb_true_iff in Hr as [Hr1 Hr2].
    apply negb_true_iff in Hr1, Hr2. rewrite Hr1, Hr2 in Hex.
    destruct Hex as (E1 & E2 & E3 & E4).
    destruct (IH i1) as (H1 & H2 & H3 & H4); try done.
    + intros; apply Hall, elem_of_cons; by right.
    + intros; apply Hrange, elem_of_cons; by right.
    + repeat split; congruence.
Qed.

End OwnLines.

(** X12. An accumulator depends on the lines of its own state only, in
    their order: two runs that return and read the same lines for a state
    code, whatever the lines of other states, their order among them or
    the files they come from, end with the same accumulator for it (or
    both with none), in the tables the two reports are printed from. *)
Theorem accumulator_of_own_lines atof fopen1 fopen2 prog argv1 argv2 c :
  term (main atof fopen1 prog argv1) = Returned 0 ->
  term (main atof fopen2 prog argv2) = Returned 0 ->
  lines_of c (all_lines fopen1 argv1) = lines_of c (all_lines fopen2 argv2) ->
  exists tbl1 tbl2,
    tbl_steps atof NUM_STATES (all_lines fopen1 argv1) [] = Ok tbl1
    /\ tbl_steps atof NUM_STATES (all_lines fopen2 argv2) [] = Ok tbl2
    /\ stdout (main atof fopen1 prog argv1) = print_report (repr NUM_STATES tbl1) NUM_STATES
    /\ stdout (main atof fopen2 prog argv2) = print_report (repr NUM_STATES tbl2) NUM_STATES
    /\ find_info c tbl1 = find_info c tbl2.
Proof.
  intros H1 H2 Hl.
  destruct (main_returned _ _ _ _ H1) as (t1 & Hr1 & Hm1).
  destruct (main_returned _ _ _ _ H2) as (t2 & Hr2 & Hm2).
  exists t1, t2. rewrite Hm1, Hm2. split; [done|]. split; [done|].
  split; [done|]. split; [done|]. by eapply run_find_eq.
Qed.

Lemma accumulator_of_own_lines_witness :
  exists tbl1 tbl2,
    tbl_steps atof_decimal NUM_STATES (all_lines sample_fs ["tn.tdv"; "wa.tdv"]) [] = Ok tbl1
    /\ tbl_steps atof_decimal NUM_STATES (all_lines sample_fs ["wa.tdv"]) [] = Ok tbl2
    /\ stdout (main atof_decimal sample_fs "climate" ["tn.tdv"; "wa.tdv"])
       = print_report (repr NUM_STATES tbl1) NUM_STATES
    /\ stdout (main atof_decimal sample_fs "climate" ["wa.tdv"])
       = print_report (repr NUM_STATES tbl2) NUM_STATES
    /\ find_info "WA" tbl1 = find_info "WA" tbl2.
Proof.
  apply (accumulator_of_own_lines atof_decimal sample_fs sample_fs "climate"
           ["tn.tdv"; "wa.tdv"] ["wa.tdv"] "WA"); vm_compute; reflexivity.
Defined.

(** X13. The counts of snow and lightning of an accumulator are the sums
    of the values [atoi] reads from tokens 4 and 6 of the lines of its
    state, wrapped to 32 bits, not the numbers of lines with a flag; the
    cloud cover and the pressure are running sums of tokens 5 and 7. The
    report prints the two counts and the cloud sum divided by the number
    of records; the pressure is not printed: the block of a state is the
    same whatever its pressure sum is. *)
Theorem other_sums atof fopen prog argv :
  term (main atof fopen prog argv) = Returned 0 ->
  exists tbl,
    tbl_steps atof NUM_STATES (all_lines fopen argv) [] = Ok tbl
    /\ stdout (main atof fopen prog argv) = print_report (repr NUM_STATES tbl) NUM_STATES
    /\ forall info, info ∈ tbl ->
         let ls := lines_of info.(code) (all_lines fopen argv) in
         let snowSum := to_int32 (Z_sum (map (fun l => atoi (field 4 l)) ls)) in
         let lightningSum := to_int32 (Z_sum (map (fun l => atoi (field 6 l)) ls)) in
         let cloudSum := float_sum (map (fun l => atof (field 5 l)) ls) in
         info.(snow) = snowSum /\ info.(lightning) = lightningSum
         /\ info.(cloud) = cloudSum
         /\ info.(pressure) = float_sum (map (fun l => atof (field 7 l)) ls)
         /\ Printf "Lightning Strikes: %d\n" [AInt lightningSum] ∈ state_block info
         /\ Printf "Records with Snow Cover: %d\n" [AInt snowSum] ∈ state_block info
         /\ Printf "Average Cloud Cover: %.1lf%% \n"
                   [ADouble (cloudSum / double_of_uint info.(num_records))%float]
            ∈ state_block info
         /\ forall p, state_block (set_pressure p info) = state_block info.
Proof.
  intros Hret. destruct (main_returned _ _ _ _ Hret) as (tbl & Hrun & Hmain).
  exists tbl. split; [done|]. split; [by rewrite Hmain|].
  intros info Hin ls snowSum lightningSum cloudSum.
  destruct (run_entry _ _ _ _ _ Hrun Hin) as [Hne Hf]. fold ls in Hne, Hf.
  assert (forall l, l ∈ ls -> is_Some (line_code l)) as Hcodes.
  { intros l Hl. rewrite (lines_of_code _ _ _ Hl). eauto. }
  destruct (fold_records_fields atof _ _ _ Hcodes Hf) as (Hs & Hl & Hc & Hp & Hr).
  destruct (Hr Hne) as [Hrs Hrl].
  rewrite to_int32_small in Hs, Hl by done.
  change (snow (new_info (code info))) with 0%Z in Hs.
  change (lightning (new_info (code info))) with 0%Z in Hl.
  change (cloud (new_info (code info))) with 0%float in Hc.
  change (pressure (new_info (code info))) with 0%float in Hp.
  rewrite Z.add_0_l in Hs, Hl.
  subst snowSum lightningSum cloudSum. unfold float_sum.
  rewrite <- Hs, <- Hl, <- Hc, <- Hp. repeat split.
  - unfold state_block. do 8 apply list_elem_of_further. apply list_elem_of_here.
  - unfold state_block. do 9 apply list_elem_of_further. apply list_elem_of_here.
  - unfold state_block. do 10 apply list_elem_of_further. apply list_elem_of_here.
Qed.

Lemma other_sums_witness :
  exists tbl,
    tbl_steps atof_decimal NUM_STATES (all_lines sample_fs ["tn.tdv"; "wa.tdv"]) [] = Ok tbl
    /\ forall info, info ∈ tbl ->
         info.(lightning)
         = to_int32 (Z_sum (map (fun l => atoi (field 6 l))
                                (lines_of info.(code)
                                          (all_lines sample_fs ["tn.tdv"; "wa.tdv"])))).
Proof.
  destruct (other_sums atof_decimal sample_fs "climate" ["tn.tdv"; "wa.tdv"])
    as (tbl & Hrun & _ & Hall); [vm_compute; reflexivity|].
  exists tbl. split; [exact Hrun|].
  intros info Hin. destruct (Hall info Hin) as (_ & Hl & _). exact Hl.
Defined.

(** X14. While all temperatures read for a state are neither below -9999
    nor above 9999, its accumulator keeps the initial [minTemp = -9999]
    and [maxTemp = 9999] and the time stamps 0, however many records it
    has; the report prints these two values converted to Fahrenheit and
    the date of time 0 for both. *)
Theorem extrema_stay_initial atof fopen prog argv :
  term (main atof fopen prog argv) = Returned 0 ->
  exists tbl,
    tbl_steps atof NUM_STATES (all_lines fopen argv) [] = Ok tbl
    /\ stdout (main atof fopen prog argv) = print_report (repr NUM_STATES tbl) NUM_STATES
    /\ forall info, info ∈ tbl ->
         (forall l, l ∈ lines_of info.(code) (all_lines fopen argv) ->
                    in_initial_range (atof (field 8 l)) = true) ->
         info.(minTemp) = (-9999)%float /\ info.(maxTemp) = 9999%float
         /\ info.(minTempTimestamp) = 0%Z /\ info.(maxTempTimestamp) = 0%Z
         /\ Printf "Max Temperature: %.1fF\n" [ADouble (9999 * 1.8 - 459.67)%float]
            ∈ state_block info
         /\ Printf "Max Temperature on: %s" [ACtime 0] ∈ state_block info
         /\ Printf "Min Temperature: %.1fF\n" [ADouble (-9999 * 1.8 - 459.67)%float]
            ∈ state_block info
         /\ Printf "Min Temperature on: %s" [ACtime 0] ∈ state_block info.
Proof.
  intros Hret. destruct (main_returned _ _ _ _ Hret) as (tbl & Hrun & Hmain).
  exists tbl. split; [done|]. split; [by rewrite Hmain|].
  intros info Hin Hrange.
  destruct (run_entry _ _ _ _ _ Hrun Hin) as [_ Hf].
  assert (forall l, l ∈ lines_of (code info) (all_lines fopen argv) -> is_Some (line_code l))
    as Hcodes.
  { intros l Hl. rewrite (lines_of_code _ _ _ Hl). eauto. }
  destruct (fold_records_extrema_initial atof (new_info (code info)) _ info Hcodes Hrange)
    as (H1 & H2 & H3 & H4); [done..|].
  change (minTempTimestamp (new_info (code info))) with 0%Z in H3.
  change (maxTempTimestamp (new_info (code info))) with 0%Z in H4.
  split; [done|]. split; [done|]. split; [done|]. split; [done|].
  unfold state_block. rewrite H1, H2, H3, H4. repeat split.
  - do 4 apply list_elem_of_further. apply list_elem_of_here.
  - do 5 apply list_elem_of_further. apply list_elem_of_here.
  - do 6 apply list_elem_of_further. apply list_elem_of_here.
  - do 7 apply list_elem_of_further. apply list_elem_of_here.
Qed.

Lemma extrema_stay_initial_witness :
  let fopen := fun _ : string => Some (cat [line_WA; line_TN; line_WA]) in
  exists tbl,
    tbl_steps atof_decimal NUM_STATES (all_lines fopen ["data.tdv"]) [] = Ok tbl
    /\ forall info, info ∈ tbl ->
         info.(minTemp) = (-9999)%float /\ info.(maxTemp) = 9999%float.
Proof.
  intros fopen.
  destruct (extrema_stay_initial atof_decimal fopen "climate" ["data.tdv"])
    as (tbl & Hrun & _ & Hall); [vm_compute; reflexivity|].
  exists tbl. split; [exact Hrun|].
  intros info Hin. destruct (Hall info Hin) as (H1 & H2 & _); [|by split].
  intros l Hl. apply list_elem_of_filter in Hl as [_ Hl].
  assert (all_lines fopen ["data.tdv"] = [line_WA; line_TN; line_WA]) as Hlines
    by (vm_compute; reflexivity).
  rewrite Hlines in Hl.
  repeat (apply elem_of_cons in Hl as [->|Hl]; [vm_compute; reflexivity|]).
  by apply elem_of_nil in Hl.
Defined.

(** ** One line changes one entry *)

(** X15. When the loop body completes, on any array, it has written one
    entry of the array and no other: the entry of the state code of the
    line. Either [compareOrder] found the code at a position below
    [currentStates], [currentStates] is unchanged and the count of that
    accumulator is one more (modulo [2^32]); or [compareOrder] returned
    -1, the table was not full, the new accumulator is at position
    [currentStates] with count 1, and [currentStates] is one more. The accumulator written has the code of
    the line. *)
Theorem analyze_line_one_entry atof line (states : states_t) currentStates ns states' cs' :
  analyze_line atof line states currentStates ns = Ok (states', cs') ->
  exists i info' c,
    line_code line = Some c /\ info'.(code) = c
    /\ states' = <[i := Some info']> states
    /\ (forall j, j <> i -> states' !! j = states !! j)
    /\ ((compareOrder states (Some c) currentStates = Ok (Z.of_nat i)
         /\ cs' = currentStates /\ i < currentStates
         /\ exists info, entry states i = Some info /\ info.(code) = c
              /\ info'.(num_records) = to_uint32 (info.(num_records) + 1))
        \/ (compareOrder states (Some c) currentStates = Ok (-1)%Z
            /\ cs' = S currentStates /\ i = currentStates /\ currentStates < ns
            /\ info'.(num_records) = 1%Z)).
Proof.
  unfold analyze_line, line_code.
  destruct (strtok (c_str line) delims) as [[c|] saved]; cbn [fst].
  - destruct (compareOrder_loop_spec states c currentStates currentStates 0 eq_refl)
      as [(i & info & Hcmp & Hi & He & Hc & _)|[Hcmp _]]; [intros j Hj; lia|..];
      unfold compareOrder; rewrite Hcmp; cbn [bind].
    + replace (Z.of_nat i =? -1)%Z with false by (symmetry; apply Z.eqb_neq; lia).
      cbn [bind]. rewrite Nat2Z.id, He. cbn [deref bind].
      destruct (fold_record atof info saved) as [info'| |] eqn:Ef; cbn [bind]; try done.
      intros [= <- <-]. exists i, info', c.
      split; [done|]. split; [by rewrite (fold_record_code _ _ _ _ Ef)|].
      split; [done|]. split; [intros j Hj; by apply list_lookup_insert_ne|].
      left. split; [done|]. split; [done|]. split; [done|].
      exists info. split; [done|]. split; [done|].
      by apply (fold_record_num_records _ _ _ _ Ef).
    + change (-1 =? -1)%Z with true. cbv iota.
      destruct (ns <=? currentStates)%nat eqn:Hcap; cbn [bind]; [done|].
      apply Nat.leb_gt in Hcap. unfold strcpy_code. cbn [deref bind].
      destruct (String.length c <=? 2)%nat; cbn [bind]; [|done].
      destruct (decide (currentStates < length states)) as [Hlt|Hge].
      * unfold entry. rewrite list_lookup_insert_eq by done.
        change (mjoin (Some (Some (new_info c)))) with (Some (new_info c)).
        cbn [deref bind].
        destruct (fold_record atof (new_info c) saved) as [info'| |] eqn:Ef; cbn [bind];
          try done.
        intros [= <- <-]. exists currentStates, info', c.
        split; [done|]. split; [by rewrite (fold_record_code _ _ _ _ Ef)|].
        split; [by rewrite list_insert_insert_eq|].
        split; [intros j Hj; rewrite list_insert_insert_eq; by apply list_lookup_insert_ne|].
        right. split; [done|]. split; [done|]. split; [done|]. split; [done|].
        by rewrite (fold_record_num_records _ _ _ _ Ef).
      * unfold entry. rewrite list_insert_ge by lia.
        rewrite (lookup_ge_None_2 states currentStates) by lia. done.
  - destruct (compareOrder states None currentStates) as [z| |] eqn:E; cbn [bind]; try done.
    apply compareOrder_loop_NULL in E as ->. change (-1 =? -1)%Z with true. cbv iota.
    by destruct (ns <=? currentStates)%nat.
Qed.

Lemma analyze_line_one_entry_witness :
  exists states' i info',
    analyze_line atof_decimal line_TN (replicate NUM_STATES None) 0 NUM_STATES
    = Ok (states', 1)
    /\ states' = <[i := Some info']> (replicate NUM_STATES None)
    /\ info'.(code) = "TN".
Proof.
  destruct (analyze_line atof_decimal line_TN (replicate NUM_STATES None) 0 NUM_STATES)
    as [[states' cs']| |] eqn:E; [|vm_compute in E; discriminate..].
  assert (cs' = 1) as -> by (vm_compute in E; congruence).
  destruct (analyze_line_one_entry atof_decimal line_TN (replicate NUM_STATES None) 0
              NUM_STATES states' 1 E) as (i & info' & c & Hc & Hcode & Hs & _).
  exists states', i, info'. split; [reflexivity|]. split; [exact Hs|].
  rewrite Hcode. vm_compute in Hc. congruence.
Defined.
